(** * IAM service: authentication, session gate and RBAC queries

    A shallow embedding of [app/auth/models.py], [app/auth/routes_api.py]
    and the user loader of [app/__init__.py].

    The relational store is a record of tables (lists of rows).  A request
    handler is a computation over the store and the client's login cookie
    that either returns a value or raises a Python exception; state changes
    made before an exception is raised persist, as they do in Python. *)

From Stdlib Require Import ZArith.
From stdpp Require Import base option strings list gmap sorting.

Local Open Scope string_scope.
Local Open Scope Z_scope.

(** ** Data model ([app/auth/models.py]) *)

Inductive auth_provider_enum := local | azure_ad | okta | saml | other.

Inductive auth_event_type_enum :=
  | login_success | login_failed | logout | mfa_sent
  | mfa_verified | sso_login | lockout | password_reset.

(** One row of [iam_user_account].  [is_active] and [is_locked] hold what
    [CAST(col AS UNSIGNED)] reads: an integer, or NULL ([None]).  Timestamps
    are integers.  [updated_at] is rewritten by every UPDATE of the row
    through the ORM ([onupdate=datetime.utcnow]).  The column created_at
    is never written by the operations below; the endpoints that show it
    take it as a function of the row.  The columns created_by and
    updated_by are neither read nor written and are left out. *)
Module IAMUserAccount.
Record t := mk {
  user_id : Z;
  parent_id : Z;
  username : string;
  email : string;
  phone_number : option string;
  display_name : string;
  auth_provider : auth_provider_enum;
  password_hash : option string;
  is_active : option Z;
  is_locked : option Z;
  last_login_at : option Z;
  updated_at : Z
}.

Definition with_last_login_at (u : t) (ts : Z) : t :=
  mk (user_id u) (parent_id u) (username u) (email u) (phone_number u)
     (display_name u) (auth_provider u) (password_hash u)
     (is_active u) (is_locked u) (Some ts) (updated_at u).

Definition with_updated_at (u : t) (ts : Z) : t :=
  mk (user_id u) (parent_id u) (username u) (email u) (phone_number u)
     (display_name u) (auth_provider u) (password_hash u)
     (is_active u) (is_locked u) (last_login_at u) ts.

Definition with_status (u : t) (active locked : option Z) : t :=
  mk (user_id u) (parent_id u) (username u) (email u) (phone_number u)
     (display_name u) (auth_provider u) (password_hash u)
     active locked (last_login_at u) (updated_at u).
End IAMUserAccount.

Module IAMRole.
Record t := mk {
  role_id : Z;
  role_name : string;
  role_description : option string
}.
End IAMRole.

(** Join table users <-> roles; (user_id, role_id) is the primary key. *)
Module IAMUserRole.
Record t := mk {
  user_id : Z;
  role_id : Z;
  assigned_at : Z;
  assigned_by : option string
}.
End IAMUserRole.

Module IAMAuthSession.
Record t := mk {
  session_id : string;
  user_id : Z;
  login_time : Z;
  logout_time : option Z;
  ip_address : option string;
  user_agent : option string;
  sso_idp_session_ref : option string
}.
End IAMAuthSession.

(** [log_id] is assigned by the store (autoincrement) and is left out. *)
Module IAMAuthLog.
Record t := mk {
  user_id : option Z;
  event_type : auth_event_type_enum;
  event_time : Z;
  ip_address : option string;
  user_agent : option string;
  details : option string
}.
End IAMAuthLog.

Record Store := mkStore {
  iam_user_account : list IAMUserAccount.t;
  iam_role : list IAMRole.t;
  iam_user_role : list IAMUserRole.t;
  iam_auth_session : list IAMAuthSession.t;
  iam_auth_log : list IAMAuthLog.t
}.

(** What a handler can change: the store, and the client-visible login
    token.  Flask-Login keeps the token as [session["_user_id"]] (the
    string [get_id] returns, [str(user_id)]; [load_user] reads it back
    with [int]); the two conversions are inverse, and the token is
    modelled by the number. *)
Record World := mkWorld {
  db : Store;
  session_user_id : option Z
}.

Definition set_db (w : World) (s : Store) : World :=
  mkWorld s (session_user_id w).

Definition set_session_user_id (w : World) (c : option Z) : World :=
  mkWorld (db w) c.

(** ** Requests and responses *)

(** The outcome of a call that may raise: a value, or the text [str(e)]
    of the exception. *)
Inductive result (A : Type) :=
  | Ok (a : A)
  | Raised (e : string).
Arguments Ok {A} a.
Arguments Raised {A} e.

(** A request: what [request.get_json()] does on it, the client address,
    the User-Agent header and the clock reading [datetime.utcnow()] of the
    request.  [get_json()] raises when the request carries no JSON body or
    one that does not parse; otherwise it returns the parsed body: [None]
    for the JSON value [null], or an object (values are restricted to
    strings). *)
Record Request := mkRequest {
  json : result (option (gmap string string));
  remote_addr : option string;
  header_user_agent : option string;
  utcnow : Z
}.

Record UserInfo := mkUserInfo {
  info_user_id : Z;
  info_username : string;
  info_email : string;
  info_display_name : string;
  info_roles : list string;
  info_auth_provider : auth_provider_enum
}.

(** The four JSON bodies the authentication endpoints build. *)
Inductive Body :=
  | StatusError (message : string)       (* {"status":"error","message":m} *)
  | StatusSuccessUser (user : UserInfo)  (* {"status":"success","user":u} *)
  | AuthenticatedUser (user : UserInfo)  (* {"authenticated":true,"user":u} *)
  | StatusSuccess (message : string).    (* {"status":"success","message":m} *)

Definition Response : Type := Body * Z.

(** Result of a view behind [@login_required]: the view's response, or
    the login manager's [unauthorized()] handling when the gate refuses. *)
Inductive Outcome :=
  | Returned (r : Response)
  | Unauthorized.

(** Answer of the form login: a redirect to an endpoint, after an optional
    [flash(message, category)]. *)
Inductive FormResponse :=
  | Redirect (endpoint : string) (flashed : option (string * string)).

(** ** Store faults *)

(** Which data-store calls of a request fail, each with the text of the
    exception it raises ([None]: the call succeeds); a fault is set for a
    kind of call and holds for the whole request.  Then the texts of the
    two exceptions the ORM raises of its own accord: [StaleDataError],
    when the UPDATE of a commit finds no row to update, and
    [PendingRollbackError], when a statement is issued on a session whose
    failed flush was not followed by [rollback()]. *)
Record Faults := mkFaults {
  user_query_fault : option string;    (* reads of user rows through the ORM *)
  status_query_fault : option string;  (* the raw SELECT of the status *)
  commit_fault : option string;        (* db.session.commit() of the view *)
  audit_fault : option string;         (* add + commit in log_auth_event *)
  stale_data_error : string;           (* str(StaleDataError) *)
  pending_rollback_error : string      (* str(PendingRollbackError) *)
}.

Definition no_faults : Faults :=
  mkFaults None None None None "StaleDataError" "PendingRollbackError".


(** ** Computations with state and exceptions *)

Definition M (A : Type) : Type := World -> result A * World.

Definition ret {A} (a : A) : M A := fun w => (Ok a, w).

Definition raise {A} (e : string) : M A := fun w => (Raised e, w).

Definition bind {A B} (c : M A) (k : A -> M B) : M B :=
  fun w =>
    match c w with
    | (Ok a, w') => k a w'
    | (Raised e, w') => (Raised e, w')
    end.

(** [try: c  except Exception as e: h e] *)
Definition try_except {A} (c : M A) (h : string -> M A) : M A :=
  fun w =>
    match c w with
    | (Ok a, w') => (Ok a, w')
    | (Raised e, w') => h e w'
    end.

Definition get_world : M World := fun w => (Ok w, w).

Definition modify_world (f : World -> World) : M unit := fun w => (Ok tt, f w).

(** A store call: raises when its fault is set, runs otherwise. *)
Definition store_call {A} (fault : option string) (c : M A) : M A :=
  match fault with
  | Some e => raise e
  | None => c
  end.

Declare Scope iam_scope.
Delimit Scope iam_scope with iam.
Notation "'let*' x ':=' c 'in' k" := (bind c (fun x => k))
  (at level 10, x name, c at level 100, k at level 200) : iam_scope.
Notation "c ';;;' k" := (bind c (fun _ => k))
  (at level 100, k at level 200, right associativity) : iam_scope.
Local Open Scope iam_scope.

(** ** Store queries and updates *)

(** The first row with the given username, compared exactly. *)
Definition first_by_username (st : Store) (name : string) : option IAMUserAccount.t :=
  find (fun u => String.eqb (IAMUserAccount.username u) name) (iam_user_account st).

(** The row with the given primary key. *)
Definition get_by_user_id (st : Store) (uid : Z) : option IAMUserAccount.t :=
  find (fun u => IAMUserAccount.user_id u =? uid) (iam_user_account st).

(** [IAMUserAccount.query.filter_by(username=name).first()] *)
Definition query_filter_by_username (flt : Faults) (name : string)
  : M (option IAMUserAccount.t) :=
  store_call (user_query_fault flt)
    (fun w => (Ok (first_by_username (db w) name), w)).

(** [IAMUserAccount.query.get(uid)] *)
Definition query_get (flt : Faults) (uid : Z) : M (option IAMUserAccount.t) :=
  store_call (user_query_fault flt)
    (fun w => (Ok (get_by_user_id (db w) uid), w)).

(** [SELECT CAST(is_active AS UNSIGNED), CAST(is_locked AS UNSIGNED)
     FROM iam_user_account WHERE user_id = :user_id], then [fetchone()]. *)
Definition select_status (st : Store) (uid : Z) : option (option Z * option Z) :=
  match get_by_user_id st uid with
  | Some u => Some (IAMUserAccount.is_active u, IAMUserAccount.is_locked u)
  | None => None
  end.

Definition execute_select_status (flt : Faults) (uid : Z)
  : M (option (option Z * option Z)) :=
  store_call (status_query_fault flt)
    (fun w => (Ok (select_status (db w) uid), w)).

(** Python's [bool(n)] on an integer. *)
Definition bool_of_int (n : Z) : bool := negb (n =? 0).

(** The UPDATE that the commit of a login flushes: [last_login_at] is set
    to [ts], and [updated_at] to the clock reading [upd] of its
    [onupdate]. *)
Definition set_last_login_at (uid ts upd : Z) (st : Store) : Store :=
  mkStore
    (map (fun u => if IAMUserAccount.user_id u =? uid
                   then IAMUserAccount.with_updated_at
                          (IAMUserAccount.with_last_login_at u ts) upd
                   else u)
         (iam_user_account st))
    (iam_role st) (iam_user_role st) (iam_auth_session st) (iam_auth_log st).

(** [user.last_login_at = ts; db.session.commit()].  The commit flushes an
    UPDATE of the user's row; when the store holds no row of the user any
    more, the ORM raises [StaleDataError] and nothing is written. *)
Definition commit_last_login_at (flt : Faults) (uid ts upd : Z) : M unit :=
  store_call (commit_fault flt)
    (fun w =>
       match get_by_user_id (db w) uid with
       | Some _ => (Ok tt, set_db w (set_last_login_at uid ts upd (db w)))
       | None => (Raised (stale_data_error flt), w)
       end).

(** A read of the attributes of a user object that a commit or a rollback
    has expired: the ORM reads the user's row again.  [pending] is the
    state of the ORM session: the text of the [PendingRollbackError] that
    any statement raises when a failed flush was not followed by
    [rollback()]. *)
Definition refresh_user (flt : Faults) (pending : option string) : M unit :=
  match pending with
  | Some e => raise e
  | None => store_call (user_query_fault flt) (ret tt)
  end.

Definition add_auth_log (log : IAMAuthLog.t) (st : Store) : Store :=
  mkStore (iam_user_account st) (iam_role st) (iam_user_role st)
    (iam_auth_session st) (iam_auth_log st ++ [log]).

(** [db.session.add(log); db.session.commit()].  When the write fails,
    no row is added and the ORM session is left with a rolled-back
    transaction ([session_after_log_auth_event]). *)
Definition add_and_commit_log (flt : Faults) (log : IAMAuthLog.t) : M unit :=
  store_call (audit_fault flt)
    (modify_world (fun w => set_db w (add_auth_log log (db w)))).

(** The [roles] relationship of a user: the roles joined through
    [iam_user_role], in the order of the assignment rows. *)
Definition user_roles (st : Store) (uid : Z) : list IAMRole.t :=
  omap (fun ur =>
          if IAMUserRole.user_id ur =? uid
          then find (fun r => IAMRole.role_id r =? IAMUserRole.role_id ur)
                    (iam_role st)
          else None)
       (iam_user_role st).

(** [user.roles.append(role)], as [create_test_user] assigns a role: a new
    assignment row; a pair already assigned stays assigned once (the pair
    is the primary key). *)
Definition roles_append (uid rid ts : Z) (by_ : option string) (st : Store) : Store :=
  if existsb (fun ur => (IAMUserRole.user_id ur =? uid)
                        && (IAMUserRole.role_id ur =? rid))
             (iam_user_role st)
  then st
  else mkStore (iam_user_account st) (iam_role st)
         (iam_user_role st ++ [IAMUserRole.mk uid rid ts by_])
         (iam_auth_session st) (iam_auth_log st).

(** Modelled from the spec: removing a role assignment, for which the
    repository has no handler.  The assignment row of the pair is deleted
    from [iam_user_role]. *)
Definition roles_remove (uid rid : Z) (st : Store) : Store :=
  mkStore (iam_user_account st) (iam_role st)
    (filter (fun ur => ~ (IAMUserRole.user_id ur = uid
                          /\ IAMUserRole.role_id ur = rid))
            (iam_user_role st))
    (iam_auth_session st) (iam_auth_log st).

(** Modelled from the spec: an administrator's change of a user's status,
    for which the repository has no handler.
    [UPDATE iam_user_account SET is_active = a, is_locked = l
     WHERE user_id = uid]. *)
Definition update_status (uid : Z) (a l : option Z) (st : Store) : Store :=
  mkStore
    (map (fun u => if IAMUserAccount.user_id u =? uid
                   then IAMUserAccount.with_status u a l else u)
         (iam_user_account st))
    (iam_role st) (iam_user_role st) (iam_auth_session st) (iam_auth_log st).

(** ** Python truthiness *)

(** [not s] is false exactly for a non-empty string; [None] is falsy. *)
Definition truthy_str (o : option string) : bool :=
  match o with
  | Some s => negb (String.eqb s "")
  | None => false
  end.

(** [not data] for the result of [get_json()]: [None] and [{}] are falsy. *)
Definition truthy_dict (o : option (gmap string string)) : bool :=
  match o with
  | Some d => negb (size d =? 0)%nat
  | None => false
  end.

Definition str_of_bool (b : bool) : string := if b then "True" else "False".

Definition event_type_name (e : auth_event_type_enum) : string :=
  match e with
  | login_success => "login_success"
  | login_failed => "login_failed"
  | logout => "logout"
  | mfa_sent => "mfa_sent"
  | mfa_verified => "mfa_verified"
  | sso_login => "sso_login"
  | lockout => "lockout"
  | password_reset => "password_reset"
  end.

Section Auth.

(** [werkzeug.security.check_password_hash(pwhash, password)] *)
Variable check_password_hash : string -> string -> bool.

(** ** Methods of [IAMUserAccount] ([app/auth/models.py]) *)

Definition get_id (self : IAMUserAccount.t) : Z := IAMUserAccount.user_id self.

Definition is_authenticated (self : IAMUserAccount.t) : bool := true.

Definition is_anonymous (self : IAMUserAccount.t) : bool := false.

Definition is_active_account (flt : Faults) (self : IAMUserAccount.t) : M bool :=
  try_except
    (let* result := execute_select_status flt (IAMUserAccount.user_id self) in
     match result with
     | Some (r0, r1) =>
         let active_val :=
           match r0 with Some v => bool_of_int v | None => true end in
         let locked_val :=
           match r1 with Some v => bool_of_int v | None => false end in
         ret (active_val && negb locked_val)
     | None => ret true
     end)
    (fun _ => ret true).

(** [def is_active(self)], the method that replaces the column of the
    same name in the class. *)
Definition is_active_method (flt : Faults) (self : IAMUserAccount.t) : M bool :=
  is_active_account flt self.

Definition verify_password (self : IAMUserAccount.t) (raw_password : string) : bool :=
  if negb (truthy_str (IAMUserAccount.password_hash self)) then false
  else check_password_hash
         (default "" (IAMUserAccount.password_hash self)) raw_password.

Definition has_role (st : Store) (self : IAMUserAccount.t) (role_name : string) : bool :=
  existsb (fun r => String.eqb (IAMRole.role_name r) role_name)
          (user_roles st (IAMUserAccount.user_id self)).

Definition has_any_role (st : Store) (self : IAMUserAccount.t)
           (role_names : list string) : bool :=
  let names : gset string :=
    list_to_set (map IAMRole.role_name
                     (user_roles st (IAMUserAccount.user_id self))) in
  existsb (fun r => bool_decide (r ∈ names)) role_names.

(** ** Flask-Login, as the application uses it *)

(** The truth value of the attribute [user.is_active].  On
    [IAMUserAccount] the attribute is the bound method [is_active], which
    is not called here: an object, and truthy. *)
Definition is_active_attribute (user : IAMUserAccount.t) : bool := true.

(** [login_user(user)] refuses a user whose [user.is_active] is falsy and
    returns [False]; otherwise it sets the token and returns [True]. *)
Definition login_user (user : IAMUserAccount.t) : M bool :=
  if negb (is_active_attribute user) then ret false
  else fun w => (Ok true, set_session_user_id w (Some (get_id user))).

(** [logout_user()] removes the token. *)
Definition logout_user : M bool :=
  fun w => (Ok true, set_session_user_id w None).

(** [load_user] of [create_app] ([app/__init__.py]). *)
Definition load_user (flt : Faults) (user_id : Z) : M (option IAMUserAccount.t) :=
  query_get flt user_id.

(** [current_user]: the user [load_user] returns for the token, the
    anonymous user ([None]) without a token or without such a user. *)
Definition current_user (flt : Faults) : M (option IAMUserAccount.t) :=
  let* w := get_world in
  match session_user_id w with
  | Some uid => load_user flt uid
  | None => ret None
  end.

(** [@login_required]: the view runs when [current_user.is_authenticated],
    otherwise the login manager's [unauthorized()] answers.  The
    anonymous user is not authenticated. *)
Definition login_required (flt : Faults) (view : IAMUserAccount.t -> M Response)
  : M Outcome :=
  let* cu := current_user flt in
  match cu with
  | Some user =>
      if is_authenticated user
      then (let* r := view user in ret (Returned r))
      else ret Unauthorized
  | None => ret Unauthorized
  end.

(** ** REST endpoints ([app/auth/routes_api.py]) *)

(** The row [log_auth_event] builds: [IAMAuthLog(user_id=..., ...)]. *)
Definition new_auth_log (req : Request)
           (event_type : auth_event_type_enum) (user_id : option Z)
           (success : bool) (details : option string) : IAMAuthLog.t :=
  IAMAuthLog.mk user_id event_type (utcnow req)
    (remote_addr req) (header_user_agent req)
    (Some (if truthy_str details then default "" details
           else "Event: " +:+ event_type_name event_type
                +:+ ", Success: " +:+ str_of_bool success)).

Definition log_auth_event (flt : Faults) (req : Request)
           (event_type : auth_event_type_enum) (user_id : option Z)
           (success : bool) (details : option string) : M unit :=
  try_except
    (let log := new_auth_log req event_type user_id success details in
     add_and_commit_log flt log)
    (fun _ => ret tt).

(** The state in which [log_auth_event] leaves the ORM session.  When its
    write fails, the exception is swallowed and no [rollback()] follows:
    the session stays with a rolled-back transaction, and the next
    statement of the request raises [PendingRollbackError]. *)
Definition session_after_log_auth_event (flt : Faults) : option string :=
  match audit_fault flt with
  | Some _ => Some (pending_rollback_error flt)
  | None => None
  end.

Definition server_error (e : string) : M Response :=
  ret (StatusError ("Server error: " +:+ e), 500).

(** The [user] object of the JSON responses. *)
Definition user_info (st : Store) (user : IAMUserAccount.t) : UserInfo :=
  mkUserInfo (IAMUserAccount.user_id user) (IAMUserAccount.username user)
    (IAMUserAccount.email user) (IAMUserAccount.display_name user)
    (map IAMRole.role_name (user_roles st (IAMUserAccount.user_id user)))
    (IAMUserAccount.auth_provider user).

(** [api_login] from the account-status check on (after the password
    has been verified), for the user object of the lookup. *)
Definition api_login_status_check (flt : Faults) (req : Request)
           (user : IAMUserAccount.t) : M Response :=
  let* result := execute_select_status flt (IAMUserAccount.user_id user) in
  let account_active :=
    match result with
    | Some (r0, r1) =>
        let is_active_val :=
          match r0 with Some v => bool_of_int v | None => true end in
        let is_locked_val :=
          match r1 with Some v => bool_of_int v | None => false end in
        is_active_val && negb is_locked_val
    | None => true
    end in
  if negb account_active then
    log_auth_event flt req login_failed (Some (IAMUserAccount.user_id user))
      false (Some "Account locked/inactive") ;;;
    ret (StatusError "Account disabled or locked", 403)
  else
    login_user user ;;;
    commit_last_login_at flt (IAMUserAccount.user_id user)
      (utcnow req) (utcnow req) ;;;
    (* user.user_id, the argument of log_auth_event: the commit has expired
       the attributes of user *)
    refresh_user flt None ;;;
    log_auth_event flt req login_success (Some (IAMUserAccount.user_id user))
      true None ;;;
    (* the attributes of user read for the response, expired again *)
    refresh_user flt (session_after_log_auth_event flt) ;;;
    let* w := get_world in
    ret (StatusSuccessUser (user_info (db w) user), 200).

(** [request.get_json()] *)
Definition get_json (req : Request) : M (option (gmap string string)) :=
  fun w => (json req, w).

(** The body of [api_login], inside its [try]. *)
Definition api_login_try (flt : Faults) (req : Request) : M Response :=
  let* data := get_json req in
  if negb (truthy_dict data) then
    ret (StatusError "Invalid request", 400)
  else
    let username := (default ∅ data) !! "username" in
    let password := (default ∅ data) !! "password" in
    if negb (truthy_str username) || negb (truthy_str password) then
      ret (StatusError "Username and password required", 400)
    else
      let* user := query_filter_by_username flt (default "" username) in
      match user with
      | None =>
          log_auth_event flt req login_failed None false
            (Some ("User not found: " +:+ default "" username)) ;;;
          ret (StatusError "Invalid credentials", 401)
      | Some user =>
          if negb (verify_password user (default "" password)) then
            log_auth_event flt req login_failed
              (Some (IAMUserAccount.user_id user)) false
              (Some "Invalid password") ;;;
            ret (StatusError "Invalid credentials", 401)
          else api_login_status_check flt req user
      end.

(** [POST /api/auth/login] *)
Definition api_login (flt : Faults) (req : Request) : M Response :=
  try_except (api_login_try flt req) server_error.

(** [api_login] resumed after the password check, for a given user
    object: the status check and what follows, inside the same [try]. *)
Definition api_login_verified (flt : Faults) (req : Request)
           (user : IAMUserAccount.t) : M Response :=
  try_except (api_login_status_check flt req user) server_error.

(** [GET /api/auth/verify] *)
Definition api_verify (flt : Faults) : M Outcome :=
  login_required flt (fun current_user =>
    try_except
      (let* w := get_world in
       ret (AuthenticatedUser (user_info (db w) current_user), 200))
      server_error).

(** [POST /api/auth/logout] *)
Definition api_logout (flt : Faults) (req : Request) : M Outcome :=
  login_required flt (fun current_user =>
    try_except
      (let user_id := Some (IAMUserAccount.user_id current_user) in
       logout_user ;;;
       log_auth_event flt req logout user_id true None ;;;
       ret (StatusSuccess "Logged out", 200))
      server_error).

(** ** Form login ([app/auth/routes_login.py]) *)

(** [login_submit] from the account-status check on, for the user object
    of the lookup; [now] is the store's clock ([db.func.now()]) and
    [utcnow] the clock reading of the [onupdate] of [updated_at]. *)
Definition login_submit_status_check (flt : Faults) (now utcnow : Z)
           (user : IAMUserAccount.t) : M FormResponse :=
  let* result := execute_select_status flt (IAMUserAccount.user_id user) in
  let account_active :=
    match result with
    | Some (r0, r1) =>
        let is_active_val :=
          match r0 with Some v => bool_of_int v | None => true end in
        let is_locked_val :=
          match r1 with Some v => bool_of_int v | None => false end in
        is_active_val && negb is_locked_val
    | None => true
    end in
  if negb account_active then
    ret (Redirect "auth.login_page" (Some ("Account disabled / locked", "error")))
  else
    login_user user ;;;
    commit_last_login_at flt (IAMUserAccount.user_id user) now utcnow ;;;
    ret (Redirect "admin.dashboard" None).

(** [POST /auth/login], for a form that carries both fields.  No [try]
    surrounds the body: an exception of a store call leaves the view. *)
Definition login_submit (flt : Faults) (username password : string)
           (now utcnow : Z) : M FormResponse :=
  let* user := query_filter_by_username flt username in
  match user with
  | None =>
      ret (Redirect "auth.login_page" (Some ("Invalid credentials", "error")))
  | Some user =>
      if negb (verify_password user password) then
        ret (Redirect "auth.login_page" (Some ("Invalid credentials", "error")))
      else login_submit_status_check flt now utcnow user
  end.

End Auth.

(** ** Vocabulary of the properties *)

(** The request carries the credentials [u] and [p], both non-empty (the
    input constraint of the login operation). *)
Definition credentials (req : Request) (u p : string) : Prop :=
  exists d, json req = Ok (Some d) /\
    d !! "username" = Some u /\ d !! "password" = Some p /\
    u <> "" /\ p <> "".

(** The world after the best-effort audit write of [log]. *)
Definition audited (flt : Faults) (log : IAMAuthLog.t) (w : World) : World :=
  match audit_fault flt with
  | None => set_db w (add_auth_log log (db w))
  | Some _ => w
  end.

(** Effective eligibility as the status row gives it, NULLs and a missing
    row defaulting to eligible. *)
Definition eligible (result : option (option Z * option Z)) : bool :=
  match result with
  | Some (a, l) =>
      match a with Some v => bool_of_int v | None => true end
      && negb (match l with Some v => bool_of_int v | None => false end)
  | None => true
  end.

Definition invalid_credentials_response : Response :=
  (StatusError "Invalid credentials", 401).

Definition account_disabled_response : Response :=
  (StatusError "Account disabled or locked", 403).

(** [role_name] is declared [unique=True]: two rows of [iam_role] with the
    same name are the same role. *)
Definition role_name_unique (st : Store) : Prop :=
  forall r1 r2, r1 ∈ iam_role st -> r2 ∈ iam_role st ->
    IAMRole.role_name r1 = IAMRole.role_name r2 ->
    IAMRole.role_id r1 = IAMRole.role_id r2.

(** ** Example scenario

    User [alice] with the hash of the password "Secr3t!", active and
    unlocked, holding the role [admin]. *)

Definition example_check (pwhash password : string) : bool :=
  String.eqb pwhash ("hash:" +:+ password).

Definition alice : IAMUserAccount.t :=
  IAMUserAccount.mk 1 1 "alice" "alice@example.com" None "Alice" local
    (Some "hash:Secr3t!") (Some 1) (Some 0) None 0.

Definition admin_role : IAMRole.t := IAMRole.mk 10 "admin" None.

Definition example_store : Store :=
  mkStore [alice] [admin_role] [IAMUserRole.mk 1 10 0 None] [] [].

Definition example_world : World := mkWorld example_store None.

Definition login_request (u p : string) : Request :=
  mkRequest (Ok (Some {[ "username" := u; "password" := p ]}))
    (Some "10.0.0.1") (Some "curl/8") 1000.

Definition alice_info : UserInfo :=
  mkUserInfo 1 "alice" "alice@example.com" "Alice" ["admin"] local.

(** The same store with the account disabled, and with the account locked. *)
Definition disabled_store : Store := update_status 1 (Some 0) (Some 0) example_store.

Definition locked_store : Store := update_status 1 (Some 1) (Some 1) example_store.

(** A store from which the row of [alice] has been deleted. *)
Definition deleted_store : Store := mkStore [] [admin_role] [] [] [].

(** A world in which [alice] is logged in and [iam_auth_session] holds an
    active session row for her. *)
Definition alice_session : IAMAuthSession.t :=
  IAMAuthSession.mk "s-1" 1 900 None (Some "10.0.0.1") (Some "curl/8") None.

Definition session_world : World :=
  mkWorld (mkStore [alice] [admin_role] [IAMUserRole.mk 1 10 0 None]
             [alice_session] [])
          (Some 1).

(** A request without a body, as logout and verify send it: [get_json()]
    would raise on it. *)
Definition empty_request : Request :=
  mkRequest (Raised "415 Unsupported Media Type")
    (Some "10.0.0.1") (Some "curl/8") 2000.

Definition status_timeout : Faults :=
  mkFaults None (Some "timeout") None None
    "StaleDataError" "PendingRollbackError".

Definition lookup_timeout : Faults :=
  mkFaults (Some "timeout") None None None
    "StaleDataError" "PendingRollbackError".

Definition audit_timeout : Faults :=
  mkFaults None None None (Some "timeout")
    "StaleDataError" "PendingRollbackError".

Definition commit_deadlock : Faults :=
  mkFaults None None (Some "deadlock") None
    "StaleDataError" "PendingRollbackError".

(** * More of the application *)

(** A user row with the columns [last_login_at] and [updated_at] blanked:
    what a login must leave as it was. *)
Definition forget_login_stamps (u : IAMUserAccount.t) : IAMUserAccount.t :=
  IAMUserAccount.mk (IAMUserAccount.user_id u) (IAMUserAccount.parent_id u)
    (IAMUserAccount.username u) (IAMUserAccount.email u)
    (IAMUserAccount.phone_number u) (IAMUserAccount.display_name u)
    (IAMUserAccount.auth_provider u) (IAMUserAccount.password_hash u)
    (IAMUserAccount.is_active u) (IAMUserAccount.is_locked u) None 0.

Definition invalid_credentials_flash : FormResponse :=
  Redirect "auth.login_page" (Some ("Invalid credentials", "error")).


(** ** Views behind the gate, with answers of any type *)

(** Result of a view behind [@login_required]: what the view returned, or
    the refusal of the gate. *)
Inductive Gated (A : Type) :=
  | Ran (a : A)
  | Refused.
Arguments Ran {A} a.
Arguments Refused {A}.

(** [@login_required], for a view with answers of type [A]. *)
Definition login_required_view {A} (flt : Faults)
           (view : IAMUserAccount.t -> M A) : M (Gated A) :=
  let* cu := current_user flt in
  match cu with
  | Some user =>
      if is_authenticated user
      then (let* r := view user in ret (Ran r))
      else ret Refused
  | None => ret Refused
  end.

(** A JSON answer of the listing endpoints: the data, or
    [{"status": "error", "message": m}]. *)
Inductive Json (A : Type) :=
  | JsonData (a : A)
  | JsonError (message : string).
Arguments JsonData {A} a.
Arguments JsonError {A} message.

Definition json_server_error {A} (e : string) : M (Json A * Z) :=
  ret (JsonError ("Server error: " +:+ e), 500).

(** [GET /auth/logout] ([logout] of [app/auth/routes_login.py]). *)
Definition form_logout (flt : Faults) : M (Gated FormResponse) :=
  login_required_view flt (fun _ =>
    logout_user ;;;
    ret (Redirect "auth.login_page" None)).

(** ** [GET /api/users/<int:user_id>] *)

Record UserDetail := mkUserDetail {
  detail_user_id : Z;
  detail_username : string;
  detail_email : string;
  detail_display_name : string;
  detail_phone_number : option string;
  detail_auth_provider : auth_provider_enum;
  detail_roles : list string;
  detail_is_active : bool;
  detail_is_locked : bool;
  detail_last_login_at : option Z;
  detail_created_at : option Z
}.

Section UserDetail.

(** The [created_at] column of a user row, which the row record does not
    carry ([None]: NULL). *)
Variable created_at : IAMUserAccount.t -> option Z.

(** [str(e)] for the [NotFound] exception that [abort(404)] raises. *)
Variable not_found : string.

(** [IAMUserAccount.query.get_or_404(user_id)] *)
Definition get_or_404 (flt : Faults) (user_id : Z) : M IAMUserAccount.t :=
  let* user := query_get flt user_id in
  match user with
  | Some u => ret u
  | None => raise not_found
  end.

Definition api_user_detail (flt : Faults) (user_id : Z)
  : M (Gated (Json UserDetail * Z)) :=
  login_required_view flt (fun _ =>
    try_except
      (let* user := get_or_404 flt user_id in
       let* result := execute_select_status flt (IAMUserAccount.user_id user) in
       let is_active_val :=
         match result with
         | Some (r0, _) => match r0 with Some v => bool_of_int v | None => true end
         | None => true
         end in
       let is_locked_val :=
         match result with
         | Some (_, r1) => match r1 with Some v => bool_of_int v | None => false end
         | None => false
         end in
       let* w := get_world in
       ret (JsonData
              (mkUserDetail
                 (IAMUserAccount.user_id user) (IAMUserAccount.username user)
                 (IAMUserAccount.email user) (IAMUserAccount.display_name user)
                 (IAMUserAccount.phone_number user)
                 (IAMUserAccount.auth_provider user)
                 (map IAMRole.role_name
                      (user_roles (db w) (IAMUserAccount.user_id user)))
                 is_active_val is_locked_val
                 (IAMUserAccount.last_login_at user)
                 (created_at user)),
            200))
      json_server_error).

End UserDetail.

(** ** [GET /api/sessions/active] *)

Record SessionEntry := mkSessionEntry {
  entry_session_id : string;
  entry_user_id : Z;
  entry_username : option string;
  entry_login_time : option Z;
  entry_ip_address : option string;
  entry_user_agent : option string
}.

(** The order of [order_by(IAMAuthSession.login_time.desc())]: [a] may
    come before [b]. *)
Definition login_time_desc (a b : IAMAuthSession.t) : Prop :=
  IAMAuthSession.login_time b <= IAMAuthSession.login_time a.

#[global] Instance login_time_desc_dec : RelDecision login_time_desc :=
  fun a b => decide (IAMAuthSession.login_time b <= IAMAuthSession.login_time a).

(** [IAMAuthSession.query.filter_by(logout_time=None)
     .order_by(IAMAuthSession.login_time.desc()).all()] *)
Definition query_active_sessions (st : Store) : list IAMAuthSession.t :=
  merge_sort login_time_desc
    (filter (fun s => IAMAuthSession.logout_time s = None) (iam_auth_session st)).

(** One element of [sessions_data]; [session.user] is the user row the
    session's [user_id] points to. *)
Definition session_entry (st : Store) (session : IAMAuthSession.t) : SessionEntry :=
  mkSessionEntry (IAMAuthSession.session_id session)
    (IAMAuthSession.user_id session)
    (IAMUserAccount.username
       <$> get_by_user_id st (IAMAuthSession.user_id session))
    (Some (IAMAuthSession.login_time session))
    (IAMAuthSession.ip_address session)
    (IAMAuthSession.user_agent session).

Definition sessions_data (st : Store) : list SessionEntry :=
  map (session_entry st) (query_active_sessions st).

(** [sessions_fault]: the failure of the sessions query, if any.  The
    answer carries the list and its length ([total]). *)
Definition api_active_sessions (flt : Faults) (sessions_fault : option string)
  : M (Gated (Json (list SessionEntry * nat) * Z)) :=
  login_required_view flt (fun _ =>
    try_except
      (let* data := store_call sessions_fault
                      (fun w => (Ok (sessions_data (db w)), w)) in
       ret (JsonData (data, length data), 200))
      json_server_error).

(** ** Roles: [GET /api/roles] and the admin page [/admin/roles] *)

Record RoleEntry := mkRoleEntry {
  entry_role_id : Z;
  entry_role_name : string;
  entry_role_description : option string;
  entry_user_count : nat
}.

(** The [users] relationship of a role: the users joined through
    [iam_user_role], in the order of the assignment rows. *)
Definition role_users (st : Store) (rid : Z) : list IAMUserAccount.t :=
  omap (fun ur =>
          if IAMUserRole.role_id ur =? rid
          then get_by_user_id st (IAMUserRole.user_id ur)
          else None)
       (iam_user_role st).

(** [IAMUserRole.query.filter_by(role_id=rid).count()] *)
Definition count_assignments (st : Store) (rid : Z) : nat :=
  length (filter (fun ur => IAMUserRole.role_id ur = rid) (iam_user_role st)).

(** What the admin views hand to a template, or the redirect of their
    error handler. *)
Inductive AdminAnswer (A : Type) :=
  | Render (template : string) (context : A) (user : IAMUserAccount.t)
  | AdminRedirect (endpoint : string) (flashed : option (string * string)).
Arguments Render {A} template context user.
Arguments AdminRedirect {A} endpoint flashed.

Section Roles.

(** [IAMRole.query.order_by(IAMRole.role_name).all()], applied to the rows
    of [iam_role]: the order is that of the store's collation. *)
Variable order_by_role_name : list IAMRole.t -> list IAMRole.t.

Definition roles_data (st : Store) : list RoleEntry :=
  map (fun role =>
         mkRoleEntry (IAMRole.role_id role) (IAMRole.role_name role)
           (IAMRole.role_description role)
           (length (role_users st (IAMRole.role_id role))))
      (order_by_role_name (iam_role st)).

Definition api_roles_list (flt : Faults) (roles_fault : option string)
  : M (Gated (Json (list RoleEntry) * Z)) :=
  login_required_view flt (fun _ =>
    try_except
      (let* data := store_call roles_fault
                      (fun w => (Ok (roles_data (db w)), w)) in
       ret (JsonData data, 200))
      json_server_error).

(** The dictionary [role_counts] of the admin view, filled role by role. *)
Definition role_counts (st : Store) (roles : list IAMRole.t) : gmap Z nat :=
  fold_left
    (fun counts role =>
       <[IAMRole.role_id role := count_assignments st (IAMRole.role_id role)]> counts)
    roles ∅.

(** [roles_list] of [app/auth/routes_admin.py]; the error handler also
    writes to the application log, which is not modelled. *)
Definition roles_list (flt : Faults) (roles_fault : option string)
  : M (Gated (AdminAnswer (list IAMRole.t * gmap Z nat))) :=
  login_required_view flt (fun current_user =>
    try_except
      (let* context :=
         store_call roles_fault
           (fun w =>
              let roles := order_by_role_name (iam_role (db w)) in
              (Ok (roles, role_counts (db w) roles), w)) in
       ret (Render "admin/roles.html" context current_user))
      (fun e =>
         ret (AdminRedirect "admin.dashboard"
                (Some ("Error loading roles: " +:+ e, "error"))))).

End Roles.

(** ** MFA enrolments ([IAMMfaMethod], [has_active_mfa], [/admin/mfa]) *)

Inductive mfa_method_type_enum :=
  | email_otp | totp | sms | whatsapp | webauthn | custom_app.

Module IAMMfaMethod.
Record t := mk {
  mfa_id : Z;
  user_id : Z;
  method_type : mfa_method_type_enum;
  totp_secret : option string;
  is_primary : bool;
  is_active : bool;
  created_at : Z;
  updated_at : Z
}.
End IAMMfaMethod.

(** [IAMUserAccount.has_active_mfa], over the rows of [iam_mfa_method]:
    [self.mfa_methods.filter_by(is_active=True).count() > 0]. *)
Definition has_active_mfa (iam_mfa_method : list IAMMfaMethod.t)
           (self : IAMUserAccount.t) : bool :=
  (0 <? length (filter (fun m => IAMMfaMethod.user_id m = IAMUserAccount.user_id self
                                 /\ IAMMfaMethod.is_active m = true)
                       iam_mfa_method))%nat.

Definition created_at_desc (a b : IAMMfaMethod.t) : Prop :=
  IAMMfaMethod.created_at b <= IAMMfaMethod.created_at a.

#[global] Instance created_at_desc_dec : RelDecision created_at_desc :=
  fun a b => decide (IAMMfaMethod.created_at b <= IAMMfaMethod.created_at a).

(** [IAMMfaMethod.query.filter_by(is_active=True)
     .order_by(IAMMfaMethod.created_at.desc()).all()] *)
Definition query_active_mfa_methods (iam_mfa_method : list IAMMfaMethod.t)
  : list IAMMfaMethod.t :=
  merge_sort created_at_desc
    (filter (fun m => IAMMfaMethod.is_active m = true) iam_mfa_method).

(** A value of the dictionary [users_with_mfa]:
    [{'user': method.user, 'methods': [...]}].  The dictionary is read by
    key; the order in which a template walks it is not modelled. *)
Record MfaGroup := mkMfaGroup {
  group_user : option IAMUserAccount.t;
  group_methods : list IAMMfaMethod.t
}.

(** One turn of the grouping loop of [mfa_list]. *)
Definition mfa_group_step (st : Store) (users_with_mfa : gmap Z MfaGroup)
           (method : IAMMfaMethod.t) : gmap Z MfaGroup :=
  let uid := IAMMfaMethod.user_id method in
  let entered :=
    match users_with_mfa !! uid with
    | None => <[uid := mkMfaGroup (get_by_user_id st uid) []]> users_with_mfa
    | Some _ => users_with_mfa
    end in
  alter (fun g => mkMfaGroup (group_user g) (group_methods g ++ [method]))
        uid entered.

Definition users_with_mfa (st : Store) (mfa_methods : list IAMMfaMethod.t)
  : gmap Z MfaGroup :=
  fold_left (mfa_group_step st) mfa_methods ∅.

(** [mfa_list] of [app/auth/routes_admin.py], over the rows of
    [iam_mfa_method]; the error handler also writes to the application log,
    which is not modelled. *)
Definition mfa_list (flt : Faults) (mfa_fault : option string)
           (iam_mfa_method : list IAMMfaMethod.t)
  : M (Gated (AdminAnswer (gmap Z MfaGroup))) :=
  login_required_view flt (fun current_user =>
    try_except
      (let* context :=
         store_call mfa_fault
           (fun w =>
              (Ok (users_with_mfa (db w)
                     (query_active_mfa_methods iam_mfa_method)), w)) in
       ret (Render "admin/mfa.html" context current_user))
      (fun e =>
         ret (AdminRedirect "admin.dashboard"
                (Some ("Error loading MFA data: " +:+ e, "error"))))).

(** ** Password helper [set_password] *)

Section SetPassword.

(** [werkzeug.security.generate_password_hash(password)] *)
Variable generate_password_hash : string -> string.

Definition set_password (self : IAMUserAccount.t) (raw_password : string)
  : IAMUserAccount.t :=
  IAMUserAccount.mk (IAMUserAccount.user_id self) (IAMUserAccount.parent_id self)
    (IAMUserAccount.username self) (IAMUserAccount.email self)
    (IAMUserAccount.phone_number self) (IAMUserAccount.display_name self)
    (IAMUserAccount.auth_provider self)
    (Some (generate_password_hash raw_password))
    (IAMUserAccount.is_active self) (IAMUserAccount.is_locked self)
    (IAMUserAccount.last_login_at self) (IAMUserAccount.updated_at self).

End SetPassword.

(** ** The health check ([healthcheck] of [app/__init__.py]) *)

Record Health := mkHealth {
  health_status : string;
  health_service : string;
  health_database : string
}.

(** [select_1_fault]: the failure of [SELECT 1], if any. *)
Definition healthcheck (select_1_fault : option string) : Health * Z :=
  let db_status :=
    match select_1_fault with
    | None => "connected"
    | Some e => "error: " +:+ e
    end in
  (mkHealth "ok" "IAM" db_status,
   if String.eqb db_status "connected" then 200 else 503).

(** ** The version bump ([tools/bump_version.py]) *)

(** [bump_version]; [None] stands for the error message and [sys.exit(1)]. *)
Definition bump_version (major minor rev : Z) (bump_type : string)
  : option (Z * Z * Z) :=
  if String.eqb bump_type "rev" then Some (major, minor, rev + 1)
  else if String.eqb bump_type "minor" then Some (major, minor + 1, 0)
  else if String.eqb bump_type "major" then Some (major + 1, 0, 0)
  else None.

(** Versions compared field by field, the major number first. *)
Definition version_lt (a b : Z * Z * Z) : Prop :=
  let '(a1, a2, a3) := a in
  let '(b1, b2, b3) := b in
  a1 < b1 \/ (a1 = b1 /\ (a2 < b2 \/ (a2 = b2 /\ a3 < b3))).

Section BumpMain.

(** [str.lower] *)
Variable lower : string -> string.

(** [re.search(r'IAM v(\d+)\.(\d+)\.(\d+)', content)] with its three
    groups read by [int]: the first version written in the text, if there
    is one. *)
Variable search_version : string -> option (Z * Z * Z).



End BumpMain.

(** ** The client's base URL ([IAMClient.__init__] of [iam_client.py]) *)

(** The character [/]. *)
Definition slash : Ascii.ascii := Ascii.ascii_of_nat 47.

(** [s.rstrip('/')] *)
Fixpoint rstrip_slash (s : string) : string :=
  match s with
  | EmptyString => EmptyString
  | String c rest =>
      match rstrip_slash rest with
      | EmptyString => if Ascii.eqb c slash then EmptyString else String c EmptyString
      | String c' rest' => String c (String c' rest')
      end
  end.

(** [self.base_url] after [__init__]. *)
Definition client_base_url (base_url : string) : string := rstrip_slash base_url.

(** The URL a client method requests: [f"{self.base_url}{path}"]. *)
Definition client_url (base_url path : string) : string :=
  client_base_url base_url +:+ path.

(** A run of [n] slashes. *)
Fixpoint slashes (n : nat) : string :=
  match n with
  | O => EmptyString
  | S n' => String slash (slashes n')
  end.

(** ** Example data for the further properties *)

Definition ended_session : IAMAuthSession.t :=
  IAMAuthSession.mk "s-0" 1 100 (Some 200) None None None.

Definition later_session : IAMAuthSession.t :=
  IAMAuthSession.mk "s-2" 7 950 None None None None.

Definition sessions_world : World :=
  mkWorld (mkStore [alice] [admin_role] [IAMUserRole.mk 1 10 0 None]
             [ended_session; alice_session; later_session] [])
          (Some 1).

Definition example_generate (password : string) : string := "hash:" +:+ password.

Definition example_mfa_methods : list IAMMfaMethod.t :=
  [IAMMfaMethod.mk 1 1 totp (Some "k1") true true 10 10;
   IAMMfaMethod.mk 2 2 sms None true false 20 20;
   IAMMfaMethod.mk 3 1 email_otp None false true 30 30].

(** * Properties *)

(** ** RBAC queries *)

Lemma user_roles_elem (st : Store) (uid : Z) (r : IAMRole.t) :
  r ∈ user_roles st uid <->
  exists ur, ur ∈ iam_user_role st /\ IAMUserRole.user_id ur = uid /\
    find (fun r' => IAMRole.role_id r' =? IAMUserRole.role_id ur) (iam_role st)
      = Some r.
Proof.
  unfold user_roles. rewrite list_elem_of_omap. split.
  - intros [ur [Hin Hf]]. exists ur. split; [exact Hin|].
    destruct (Z.eqb_spec (IAMUserRole.user_id ur) uid); [auto | discriminate].
  - intros [ur [Hin [Hu Hf]]]. exists ur. split; [exact Hin|].
    apply Z.eqb_eq in Hu. by rewrite Hu.
Qed.

Lemma has_role_true (st : Store) (self : IAMUserAccount.t) (n : string) :
  has_role st self n = true <->
  exists r, r ∈ user_roles st (IAMUserAccount.user_id self) /\ IAMRole.role_name r = n.
Proof.
  unfold has_role. rewrite existsb_exists. split; intros [r [H1 H2]]; exists r.
  - split; [by apply list_elem_of_In | by apply String.eqb_eq].
  - split; [by apply list_elem_of_In | by apply String.eqb_eq].
Qed.

Lemma has_any_role_true (st : Store) (self : IAMUserAccount.t) (ns : list string) :
  has_any_role st self ns = true <->
  exists n, n ∈ ns /\ has_role st self n = true.
Proof.
  unfold has_any_role. rewrite existsb_exists.
  split; intros [n [Hin H]]; exists n.
  - split; [by apply list_elem_of_In|].
    apply bool_decide_eq_true in H. apply elem_of_list_to_set in H.
    apply list_elem_of_In, in_map_iff in H. destruct H as [r [Hn Hr]].
    apply has_role_true. exists r. split; [by apply list_elem_of_In | done].
  - split; [by apply list_elem_of_In|].
    apply has_role_true in H. destruct H as [r [Hr Hn]].
    apply bool_decide_eq_true, elem_of_list_to_set, list_elem_of_In, in_map_iff.
    exists r. split; [done | by apply list_elem_of_In].
Qed.

Lemma roles_append_assigned (st : Store) (uid rid ts : Z) (by_ : option string) :
  exists ur, ur ∈ iam_user_role (roles_append uid rid ts by_ st) /\
    IAMUserRole.user_id ur = uid /\ IAMUserRole.role_id ur = rid.
Proof.
  unfold roles_append.
  destruct (existsb _ (iam_user_role st)) eqn:E.
  - apply existsb_exists in E. destruct E as [ur [Hin Hb]].
    apply andb_true_iff in Hb. destruct Hb as [Hu Hr].
    exists ur. split; [by apply list_elem_of_In|].
    split; by apply Z.eqb_eq.
  - exists (IAMUserRole.mk uid rid ts by_). simpl.
    split; [|done]. apply elem_of_app. right. apply list_elem_of_singleton. done.
Qed.

Lemma roles_append_iam_role (st : Store) (uid rid ts : Z) (by_ : option string) :
  iam_role (roles_append uid rid ts by_ st) = iam_role st.
Proof. unfold roles_append. by destruct (existsb _ _). Qed.

Lemma find_role_id (st : Store) (rid : Z) (r : IAMRole.t) :
  find (fun r' => IAMRole.role_id r' =? rid) (iam_role st) = Some r ->
  r ∈ iam_role st /\ IAMRole.role_id r = rid.
Proof.
  intros H. apply find_some in H. destruct H as [Hin Hb].
  split; [by apply list_elem_of_In | by apply Z.eqb_eq].
Qed.

(** C10. [has_role] is true exactly when the assignment relation joins the
    user to a role whose name is the given string (compared exactly, case
    included); [has_any_role] is true exactly when [has_role] is for one of
    the names; appending the role to the user's roles makes [has_role]
    true, and removing the assignment makes it false. *)
Theorem rbac_membership (st : Store) (self : IAMUserAccount.t) :
  (forall n, has_role st self n = true <->
     exists ur r, ur ∈ iam_user_role st /\
       IAMUserRole.user_id ur = IAMUserAccount.user_id self /\
       find (fun r' => IAMRole.role_id r' =? IAMUserRole.role_id ur) (iam_role st)
         = Some r /\
       IAMRole.role_name r = n) /\
  (forall ns, has_any_role st self ns = true <->
     exists n, n ∈ ns /\ has_role st self n = true) /\
  (forall rid r ts by_,
     find (fun r' => IAMRole.role_id r' =? rid) (iam_role st) = Some r ->
     has_role (roles_append (IAMUserAccount.user_id self) rid ts by_ st) self
       (IAMRole.role_name r) = true) /\
  (forall rid r,
     role_name_unique st ->
     find (fun r' => IAMRole.role_id r' =? rid) (iam_role st) = Some r ->
     has_role (roles_remove (IAMUserAccount.user_id self) rid st) self
       (IAMRole.role_name r) = false).
Proof.
  split; [|split; [|split]].
  - intros n. rewrite has_role_true. split.
    + intros [r [Hr Hn]]. apply user_roles_elem in Hr.
      destruct Hr as [ur [Hin [Hu Hf]]]. by exists ur, r.
    + intros [ur [r [Hin [Hu [Hf Hn]]]]]. exists r. split; [|done].
      apply user_roles_elem. by exists ur.
  - intros ns. apply has_any_role_true.
  - intros rid r ts by_ Hf. apply has_role_true. exists r. split; [|done].
    apply user_roles_elem.
    destruct (roles_append_assigned st (IAMUserAccount.user_id self) rid ts by_)
      as [ur [Hin [Hu Hr]]].
    exists ur. split; [done|]. split; [done|].
    by rewrite roles_append_iam_role, Hr.
  - intros rid r Huniq Hf. apply not_true_is_false. intros H.
    apply has_role_true in H. destruct H as [r' [Hr' Hn]].
    apply user_roles_elem in Hr'. destruct Hr' as [ur [Hin [Hu Hf']]].
    simpl in Hin, Hf'. apply list_elem_of_filter in Hin. destruct Hin as [Hne Hin].
    apply (find_role_id st) in Hf. apply (find_role_id st) in Hf'.
    destruct Hf as [Hrin Hrid]. destruct Hf' as [Hrin' Hrid'].
    apply Hne. split; [done|].
    rewrite <- Hrid', <- Hrid. by apply Huniq.
Qed.

(** ** Running the handlers *)

Ltac run_monad :=
  unfold bind, ret, raise, try_except, store_call, get_world, modify_world;
  simpl.

Lemma truthy_str_nonempty (s : string) : s <> "" -> truthy_str (Some s) = true.
Proof. intros H. simpl. apply negb_true_iff. by apply String.eqb_neq. Qed.

Lemma truthy_dict_lookup (d : gmap string string) (k v : string) :
  d !! k = Some v -> truthy_dict (Some d) = true.
Proof.
  intros H. simpl. apply negb_true_iff, Nat.eqb_neq. intros Hsz.
  apply map_size_empty_iff in Hsz. subst d. by rewrite lookup_empty in H.
Qed.

Lemma log_auth_event_run flt req ev uid s d w :
  log_auth_event flt req ev uid s d w
  = (Ok tt, audited flt (new_auth_log req ev uid s d) w).
Proof.
  unfold log_auth_event, add_and_commit_log, audited. run_monad.
  by destruct (audit_fault flt).
Qed.

(** What [api_login] does once the account has passed the status check:
    the login token, the UPDATE of the row, the reload of the expired
    object, the audit row, and the reads of the response. *)
Lemma login_success_steps flt req user w :
  (login_user user ;;;
   commit_last_login_at flt (IAMUserAccount.user_id user)
     (utcnow req) (utcnow req) ;;;
   refresh_user flt None ;;;
   log_auth_event flt req login_success (Some (IAMUserAccount.user_id user))
     true None ;;;
   refresh_user flt (session_after_log_auth_event flt) ;;;
   (let* w0 := get_world in
    ret (StatusSuccessUser (user_info (db w0) user), 200))) w
  = let uid := IAMUserAccount.user_id user in
    let w1 := set_session_user_id w (Some uid) in
    match commit_fault flt with
    | Some e => (Raised e, w1)
    | None =>
        match get_by_user_id (db w) uid with
        | None => (Raised (stale_data_error flt), w1)
        | Some _ =>
            let w2 := set_db w1 (set_last_login_at uid (utcnow req)
                                   (utcnow req) (db w)) in
            match user_query_fault flt with
            | Some e => (Raised e, w2)
            | None =>
                match audit_fault flt with
                | Some _ => (Raised (pending_rollback_error flt), w2)
                | None =>
                    let w3 :=
                      set_db w2
                        (add_auth_log
                           (new_auth_log req login_success (Some uid) true None)
                           (db w2)) in
                    (Ok (StatusSuccessUser (user_info (db w3) user), 200), w3)
                end
            end
        end
    end.
Proof.
  unfold login_user, is_active_attribute,
    commit_last_login_at, refresh_user, session_after_log_auth_event.
  cbn [negb]. cbv zeta.
  unfold bind at 1. unfold bind at 1. unfold store_call at 1.
  destruct (commit_fault flt) as [e|]; [reflexivity|].
  cbn [db set_session_user_id].
  destruct (get_by_user_id (db w) (IAMUserAccount.user_id user));
    [|reflexivity].
  unfold bind at 1. unfold store_call at 1.
  destruct (user_query_fault flt) as [e|]; [reflexivity|].
  unfold ret at 1. unfold bind at 1. rewrite log_auth_event_run.
  unfold audited. destruct (audit_fault flt); reflexivity.
Qed.

(** The account-status check and what follows it, step by step. *)
Lemma api_login_status_check_run flt req user w :
  api_login_status_check flt req user w =
  match status_query_fault flt with
  | Some e => (Raised e, w)
  | None =>
      let uid := IAMUserAccount.user_id user in
      if eligible (select_status (db w) uid) then
        let w1 := set_session_user_id w (Some uid) in
        let w1 := set_session_user_id w (Some uid) in
        match commit_fault flt with
        | Some e => (Raised e, w1)
        | None =>
            match get_by_user_id (db w) uid with
            | None => (Raised (stale_data_error flt), w1)
            | Some _ =>
                let w2 := set_db w1 (set_last_login_at uid (utcnow req)
                                       (utcnow req) (db w)) in
                match user_query_fault flt with
                | Some e => (Raised e, w2)
                | None =>
                    match audit_fault flt with
                    | Some _ => (Raised (pending_rollback_error flt), w2)
                    | None =>
                        let w3 :=
                          set_db w2
                            (add_auth_log
                               (new_auth_log req login_success (Some uid) true None)
                               (db w2)) in
                        (Ok (StatusSuccessUser (user_info (db w3) user), 200), w3)
                    end
                end
            end
        end
      else
        (Ok account_disabled_response,
         audited flt (new_auth_log req login_failed (Some uid) false
                        (Some "Account locked/inactive")) w)
  end.
Proof.
  unfold api_login_status_check, execute_select_status, eligible.
  unfold bind at 1. unfold store_call at 1.
  destruct (status_query_fault flt) as [e|]; [reflexivity|].
  cbv zeta.
  destruct (select_status (db w) (IAMUserAccount.user_id user)) as [[a l]|].
  - destruct (_ && _); unfold negb at 1.
    + exact (login_success_steps flt req user w).
    + unfold bind at 1. rewrite log_auth_event_run. reflexivity.
  - unfold negb at 1. exact (login_success_steps flt req user w).
Qed.

Lemma login_submit_status_check_run flt now utcnow user w :
  login_submit_status_check flt now utcnow user w =
  match status_query_fault flt with
  | Some e => (Raised e, w)
  | None =>
      let uid := IAMUserAccount.user_id user in
      if eligible (select_status (db w) uid) then
        let w1 := set_session_user_id w (Some uid) in
        match commit_fault flt with
        | Some e => (Raised e, w1)
        | None =>
            match get_by_user_id (db w) uid with
            | None => (Raised (stale_data_error flt), w1)
            | Some _ =>
                (Ok (Redirect "admin.dashboard" None),
                 set_db w1 (set_last_login_at uid now utcnow (db w1)))
            end
        end
      else
        (Ok (Redirect "auth.login_page"
               (Some ("Account disabled / locked", "error"))), w)
  end.
Proof.
  unfold login_submit_status_check, execute_select_status, eligible.
  unfold login_user, is_active_attribute, commit_last_login_at.
  run_monad.
  destruct (status_query_fault flt) as [e|]; [reflexivity|].
  destruct (select_status (db w) (IAMUserAccount.user_id user)) as [[a l]|].
  - destruct (_ && _); cbn [negb]; [|reflexivity].
    destruct (commit_fault flt); [reflexivity|].
    change (db (set_session_user_id w (Some (get_id user)))) with (db w).
    by destruct (get_by_user_id (db w) (IAMUserAccount.user_id user)).
  - cbn [negb]. destruct (commit_fault flt); [reflexivity|].
    change (db (set_session_user_id w (Some (get_id user)))) with (db w).
    by destruct (get_by_user_id (db w) (IAMUserAccount.user_id user)).
Qed.

Section Login.

Variable check_password_hash : string -> string -> bool.

(** [api_login] on a request that carries credentials. *)
Lemma api_login_try_run flt req u p w :
  credentials req u p ->
  api_login_try check_password_hash flt req w =
  match user_query_fault flt with
  | Some e => (Raised e, w)
  | None =>
      match first_by_username (db w) u with
      | None =>
          (Ok invalid_credentials_response,
           audited flt (new_auth_log req login_failed None false
                          (Some ("User not found: " +:+ u))) w)
      | Some user =>
          if verify_password check_password_hash user p
          then api_login_status_check flt req user w
          else
            (Ok invalid_credentials_response,
             audited flt (new_auth_log req login_failed
                            (Some (IAMUserAccount.user_id user)) false
                            (Some "Invalid password")) w)
      end
  end.
Proof.
  intros [d [Hj [Hu [Hp [Hune Hpne]]]]].
  unfold api_login_try, get_json. unfold bind at 1. rewrite Hj.
  rewrite (truthy_dict_lookup d "username" u Hu).
  cbn [negb from_option id]. rewrite Hu, Hp.
  rewrite (truthy_str_nonempty u Hune), (truthy_str_nonempty p Hpne).
  cbn [negb orb from_option id].
  unfold query_filter_by_username. unfold bind at 1. unfold store_call.
  destruct (user_query_fault flt) as [e|]; [reflexivity|].
  destruct (first_by_username (db w) u) as [user|].
  - destruct (verify_password check_password_hash user p); cbn [negb].
    + reflexivity.
    + unfold bind. rewrite log_auth_event_run. reflexivity.
  - unfold bind. rewrite log_auth_event_run. reflexivity.
Qed.

End Login.

Lemma login_request_credentials (u p : string) :
  u <> "" -> p <> "" -> credentials (login_request u p) u p.
Proof.
  intros Hu Hp. exists {[ "username" := u; "password" := p ]}.
  split; [reflexivity|]. split; [by rewrite lookup_insert_eq|].
  split; [|done]. rewrite lookup_insert_ne by done. by rewrite lookup_singleton_eq.
Qed.

Lemma find_user_id_map (f : IAMUserAccount.t -> IAMUserAccount.t) (uid : Z)
      (l : list IAMUserAccount.t) :
  (forall u, IAMUserAccount.user_id (f u) = IAMUserAccount.user_id u) ->
  find (fun u => IAMUserAccount.user_id u =? uid) (map f l)
  = f <$> find (fun u => IAMUserAccount.user_id u =? uid) l.
Proof.
  intros Hf. induction l as [|x l IH]; [reflexivity|].
  simpl. rewrite Hf. destruct (IAMUserAccount.user_id x =? uid); [reflexivity|].
  exact IH.
Qed.

Lemma get_by_user_id_set_last_login_at (st : Store) (uid ts upd : Z) :
  IAMUserAccount.last_login_at
    <$> get_by_user_id (set_last_login_at uid ts upd st) uid
  = (fun _ => Some ts) <$> get_by_user_id st uid.
Proof.
  unfold get_by_user_id, set_last_login_at. simpl.
  rewrite find_user_id_map.
  - destruct (find _ (iam_user_account st)) as [u|] eqn:E; [|reflexivity].
    apply find_some in E. destruct E as [_ E]. simpl. by rewrite E.
  - intros u. by destruct (IAMUserAccount.user_id u =? uid).
Qed.

Lemma select_status_Some (st : Store) (uid : Z) (r : option Z * option Z) :
  select_status st uid = Some r -> is_Some (get_by_user_id st uid).
Proof.
  unfold select_status. destruct (get_by_user_id st uid); [eauto | discriminate].
Qed.

Lemma verify_password_no_hash check (user : IAMUserAccount.t) (p : string) :
  IAMUserAccount.password_hash user = None -> verify_password check user p = false.
Proof. intros H. unfold verify_password. by rewrite H. Qed.

Lemma eligible_active_unlocked (a : Z) : a <> 0 -> eligible (Some (Some a, Some 0)) = true.
Proof. intros H. simpl. unfold bool_of_int. by destruct (Z.eqb_spec a 0). Qed.

Lemma eligible_disabled (a l : option Z) :
  a = Some 0 \/ (exists v, l = Some v /\ v <> 0) -> eligible (Some (a, l)) = false.
Proof.
  intros [->|[v [-> Hv]]]; simpl.
  - reflexivity.
  - unfold bool_of_int at 2. destruct (Z.eqb_spec v 0); [done|].
    apply andb_false_r.
Qed.

Lemma api_login_try_cases check req :
  (exists u p, credentials req u p) \/
  (exists m, forall flt w,
      api_login_try check flt req w = (Ok (StatusError m, 400), w)) \/
  (exists e, forall flt w, api_login_try check flt req w = (Raised e, w)).
Proof.
  unfold api_login_try, get_json. unfold bind at 1 2.
  destruct (json req) as [[d|]|e] eqn:Hj; cbn [truthy_dict].
  - destruct (size d =? 0)%nat; cbn [negb].
    + right. left. by exists "Invalid request".
    + cbn [from_option id].
      destruct (d !! "username") as [u|] eqn:Hu; cbn [truthy_str negb orb].
      * destruct (String.eqb_spec u "") as [|Hune]; cbn [negb orb].
        { right. left. by exists "Username and password required". }
        destruct (d !! "password") as [p|] eqn:Hp; cbn [truthy_str negb orb].
        { destruct (String.eqb_spec p "") as [|Hpne]; cbn [negb orb].
          - right. left. by exists "Username and password required".
          - left. exists u, p, d. done. }
        right. left. by exists "Username and password required".
      * right. left. by exists "Username and password required".
  - right. left. by exists "Invalid request".
  - right. right. by exists e.
Qed.

Lemma is_active_account_run flt self w :
  is_active_account flt self w =
  match status_query_fault flt with
  | Some _ => (Ok true, w)
  | None => (Ok (eligible (select_status (db w) (IAMUserAccount.user_id self))), w)
  end.
Proof.
  unfold is_active_account, execute_select_status, eligible. run_monad.
  destruct (status_query_fault flt); [reflexivity|].
  by destruct (select_status _ _) as [[a l]|].
Qed.

Lemma login_required_run flt view w :
  login_required flt view w =
  match session_user_id w with
  | None => (Ok Unauthorized, w)
  | Some uid =>
      match user_query_fault flt with
      | Some e => (Raised e, w)
      | None =>
          match get_by_user_id (db w) uid with
          | None => (Ok Unauthorized, w)
          | Some user =>
              match view user w with
              | (Ok r, w') => (Ok (Returned r), w')
              | (Raised e, w') => (Raised e, w')
              end
          end
      end
  end.
Proof.
  unfold login_required, current_user, load_user, query_get. run_monad.
  destruct (session_user_id w); [|reflexivity].
  destruct (user_query_fault flt); [reflexivity|].
  destruct (get_by_user_id (db w) z); [|reflexivity].
  by destruct (view t w) as [[r|e] w'].
Qed.

Lemma api_logout_run flt req w :
  api_logout flt req w =
  match session_user_id w with
  | None => (Ok Unauthorized, w)
  | Some uid =>
      match user_query_fault flt with
      | Some e => (Raised e, w)
      | None =>
          match get_by_user_id (db w) uid with
          | None => (Ok Unauthorized, w)
          | Some user =>
              (Ok (Returned (StatusSuccess "Logged out", 200)),
               audited flt
                 (new_auth_log req logout
                    (Some (IAMUserAccount.user_id user)) true None)
                 (set_session_user_id w None))
          end
      end
  end.
Proof.
  unfold api_logout. rewrite login_required_run.
  destruct (session_user_id w); [|reflexivity].
  destruct (user_query_fault flt); [reflexivity|].
  destruct (get_by_user_id (db w) z); [|reflexivity].
  unfold try_except, logout_user. unfold bind at 1. unfold bind at 1.
  by rewrite log_auth_event_run.
Qed.

Lemma api_verify_run flt w :
  api_verify flt w =
  match session_user_id w with
  | None => (Ok Unauthorized, w)
  | Some uid =>
      match user_query_fault flt with
      | Some e => (Raised e, w)
      | None =>
          match get_by_user_id (db w) uid with
          | None => (Ok Unauthorized, w)
          | Some user =>
              (Ok (Returned (AuthenticatedUser (user_info (db w) user), 200)), w)
          end
      end
  end.
Proof.
  unfold api_verify. rewrite login_required_run.
  destruct (session_user_id w); [|reflexivity].
  destruct (user_query_fault flt); [reflexivity|].
  by destruct (get_by_user_id (db w) z).
Qed.

Lemma audited_session_user_id flt log w :
  session_user_id (audited flt log w) = session_user_id w.
Proof. unfold audited. by destruct (audit_fault flt). Qed.

Lemma user_info_audited flt log w user :
  user_info (db (audited flt log w)) user = user_info (db w) user.
Proof. unfold audited. by destruct (audit_fault flt). Qed.

Lemma api_login_password_verified check flt req u p w user :
  credentials req u p ->
  user_query_fault flt = None ->
  first_by_username (db w) u = Some user ->
  verify_password check user p = true ->
  api_login check flt req w = api_login_verified flt req user w.
Proof.
  intros Hc Hq Hfound Hpw. unfold api_login, api_login_verified, try_except.
  by rewrite (api_login_try_run _ flt req u p w Hc), Hq, Hfound, Hpw.
Qed.

Lemma login_submit_password_verified
      check flt username password now utcnow w user :
  user_query_fault flt = None ->
  first_by_username (db w) username = Some user ->
  verify_password check user password = true ->
  login_submit check flt username password now utcnow w
  = login_submit_status_check flt now utcnow user w.
Proof.
  intros Hq Hfound Hpw. unfold login_submit, query_filter_by_username.
  run_monad. by rewrite Hq, Hfound, Hpw.
Qed.

Lemma get_by_user_id_update_status (st : Store) (uid uid' : Z) (a l : option Z) :
  get_by_user_id (update_status uid a l st) uid'
  = (fun u => if IAMUserAccount.user_id u =? uid
              then IAMUserAccount.with_status u a l else u)
    <$> get_by_user_id st uid'.
Proof.
  unfold get_by_user_id, update_status. simpl.
  apply find_user_id_map. intros u. by destruct (IAMUserAccount.user_id u =? uid).
Qed.

Lemma user_info_update_status (st : Store) (uid : Z) (a l : option Z)
      (user : IAMUserAccount.t) :
  user_info (update_status uid a l st)
    (if IAMUserAccount.user_id user =? uid
     then IAMUserAccount.with_status user a l else user)
  = user_info st user.
Proof. by destruct (IAMUserAccount.user_id user =? uid). Qed.

(** The gate does not read the status columns: a status change leaves the
    answer of [api_verify] as it was. *)
Lemma api_verify_update_status flt w uid a l :
  fst (api_verify flt (set_db w (update_status uid a l (db w))))
  = fst (api_verify flt w).
Proof.
  rewrite !api_verify_run. cbn [session_user_id set_db db].
  destruct (session_user_id w) as [tok|]; [|reflexivity].
  destruct (user_query_fault flt); [reflexivity|].
  rewrite get_by_user_id_update_status.
  destruct (get_by_user_id (db w) tok) as [user|]; [|reflexivity].
  cbn [fmap option_fmap option_map fst]. by rewrite user_info_update_status.
Qed.

Section Claims.

Variable check : string -> string -> bool.

(** C1 (amended). A login with valid credentials for an active, unlocked
    user, while the store answers, returns 200 with the user's identity and
    role names, records the login in the client's session token, adds exactly
    one [login_success] row to the audit log, sets the user's
    [last_login_at], and leaves [iam_auth_session] as it was. *)
Theorem api_login_success flt req u p w user a :
  credentials req u p ->
  user_query_fault flt = None -> status_query_fault flt = None ->
  commit_fault flt = None -> audit_fault flt = None ->
  first_by_username (db w) u = Some user ->
  verify_password check user p = true ->
  select_status (db w) (IAMUserAccount.user_id user) = Some (Some a, Some 0) ->
  a <> 0 ->
  let out := api_login check flt req w in
  fst out = Ok (StatusSuccessUser (user_info (db w) user), 200) /\
  session_user_id (snd out) = Some (IAMUserAccount.user_id user) /\
  iam_auth_session (db (snd out)) = iam_auth_session (db w) /\
  iam_auth_log (db (snd out))
    = (iam_auth_log (db w)
       ++ [new_auth_log req login_success
             (Some (IAMUserAccount.user_id user)) true None])%list /\
  IAMUserAccount.last_login_at
    <$> get_by_user_id (db (snd out)) (IAMUserAccount.user_id user)
    = Some (Some (utcnow req)).
Proof.
  intros Hc Hq Hs Hcm Ha Hfound Hpw Hst Hne out. subst out.
  unfold api_login, try_except.
  rewrite (api_login_try_run _ flt req u p w Hc), Hq, Hfound, Hpw.
  rewrite api_login_status_check_run, Hs. cbv zeta.
  rewrite Hst, (eligible_active_unlocked a Hne), Hcm.
  destruct (select_status_Some _ _ _ Hst) as [row Hrow].
  rewrite Hrow, Hq, Ha.
  split; [reflexivity|]. split; [reflexivity|]. split; [reflexivity|].
  split; [reflexivity|].
  cbn [snd db set_db set_session_user_id].
  assert (Hlog : forall log st uid,
             get_by_user_id (add_auth_log log st) uid = get_by_user_id st uid)
    by reflexivity.
  rewrite Hlog, get_by_user_id_set_last_login_at. by rewrite Hrow.
Qed.

(** C5. A login attempt with an unknown username, a wrong password or a
    user without a password hash is answered 401 "Invalid credentials", adds
    exactly one [login_failed] row to the audit log (without a user id when
    the username is unknown, with the id of the user otherwise), creates no
    AuthSession row and leaves the client's session token as it was. *)
Theorem api_login_invalid_credentials flt req u p w :
  credentials req u p ->
  user_query_fault flt = None -> audit_fault flt = None ->
  (first_by_username (db w) u = None \/
   exists user, first_by_username (db w) u = Some user /\
     (IAMUserAccount.password_hash user = None \/
      verify_password check user p = false)) ->
  let out := api_login check flt req w in
  fst out = Ok (StatusError "Invalid credentials", 401) /\
  (exists log,
      iam_auth_log (db (snd out)) = (iam_auth_log (db w) ++ [log])%list /\
      IAMAuthLog.event_type log = login_failed /\
      IAMAuthLog.user_id log
        = IAMUserAccount.user_id <$> first_by_username (db w) u) /\
  iam_auth_session (db (snd out)) = iam_auth_session (db w) /\
  session_user_id (snd out) = session_user_id w.
Proof.
  intros Hc Hq Ha Hcase out. subst out.
  unfold api_login, try_except.
  rewrite (api_login_try_run _ flt req u p w Hc), Hq.
  destruct Hcase as [Hnone | [user [Hfound Hbad]]].
  - rewrite Hnone. unfold audited. rewrite Ha.
    split; [reflexivity|]. split; [|done]. eexists. split; [reflexivity|]. done.
  - rewrite Hfound.
    assert (Hv : verify_password check user p = false).
    { destruct Hbad as [Hh|Hv]; [by apply verify_password_no_hash | exact Hv]. }
    rewrite Hv. unfold audited. rewrite Ha.
    split; [reflexivity|]. split; [|done]. eexists. split; [reflexivity|]. done.
Qed.

(** C6. With valid credentials, when the status row read at the time of
    the check has [is_active] false or [is_locked] true, the login is
    answered 403 "Account disabled or locked" and the audit log grows by
    exactly one row: a [login_failed] row of the user with the details
    "Account locked/inactive".  No login is established and no other table
    changes.  The decision reads the store, whatever the user object in
    memory holds. *)
Theorem api_login_account_disabled flt req u p w user a l :
  credentials req u p ->
  user_query_fault flt = None -> status_query_fault flt = None ->
  audit_fault flt = None ->
  first_by_username (db w) u = Some user ->
  verify_password check user p = true ->
  select_status (db w) (IAMUserAccount.user_id user) = Some (a, l) ->
  (a = Some 0 \/ exists v, l = Some v /\ v <> 0) ->
  let denied (out : result Response * World) :=
    fst out = Ok (StatusError "Account disabled or locked", 403) /\
    iam_auth_log (db (snd out))
      = (iam_auth_log (db w)
         ++ [IAMAuthLog.mk (Some (IAMUserAccount.user_id user)) login_failed
               (utcnow req) (remote_addr req) (header_user_agent req)
               (Some "Account locked/inactive")])%list /\
    session_user_id (snd out) = session_user_id w /\
    iam_user_account (db (snd out)) = iam_user_account (db w) /\
    iam_role (db (snd out)) = iam_role (db w) /\
    iam_user_role (db (snd out)) = iam_user_role (db w) /\
    iam_auth_session (db (snd out)) = iam_auth_session (db w) in
  denied (api_login check flt req w) /\
  forall in_memory,
    IAMUserAccount.user_id in_memory = IAMUserAccount.user_id user ->
    denied (api_login_verified flt req in_memory w).
Proof.
  intros Hc Hq Hs Ha Hfound Hpw Hst Hdis denied.
  assert (Hcheck : forall in_memory,
             IAMUserAccount.user_id in_memory = IAMUserAccount.user_id user ->
             denied (api_login_verified flt req in_memory w)).
  { intros m Hm. subst denied. cbv beta.
    unfold api_login_verified, try_except.
    rewrite api_login_status_check_run, Hs. cbv zeta.
    rewrite Hm, Hst, (eligible_disabled a l Hdis).
    unfold audited. rewrite Ha. cbn [fst snd db set_db session_user_id].
    repeat split; reflexivity. }
  split; [|exact Hcheck].
  unfold api_login, try_except.
  rewrite (api_login_try_run _ flt req u p w Hc), Hq, Hfound, Hpw.
  exact (Hcheck user eq_refl).
Qed.

(** C8. A failed login with an unknown username and a failed login with a
    known username and a wrong password get the same response, 401 "Invalid
    credentials"; the 403 "Account disabled or locked" response is a
    different one, and it is only returned when the user was found and the
    password verified. *)
Theorem invalid_credentials_indistinguishable
        flt1 flt2 req1 req2 u1 p1 u2 p2 w1 w2 user :
  credentials req1 u1 p1 -> credentials req2 u2 p2 ->
  user_query_fault flt1 = None -> user_query_fault flt2 = None ->
  first_by_username (db w1) u1 = None ->
  first_by_username (db w2) u2 = Some user ->
  verify_password check user p2 = false ->
  fst (api_login check flt1 req1 w1) = fst (api_login check flt2 req2 w2) /\
  fst (api_login check flt1 req1 w1) = Ok (StatusError "Invalid credentials", 401) /\
  account_disabled_response <> invalid_credentials_response /\
  forall flt req w,
    fst (api_login check flt req w) = Ok account_disabled_response ->
    exists u p found,
      credentials req u p /\
      first_by_username (db w) u = Some found /\
      verify_password check found p = true.
Proof.
  intros Hc1 Hc2 Hq1 Hq2 Hnone Hfound Hbad.
  assert (H1 : fst (api_login check flt1 req1 w1)
               = Ok (StatusError "Invalid credentials", 401)).
  { unfold api_login, try_except.
    by rewrite (api_login_try_run _ flt1 req1 u1 p1 w1 Hc1), Hq1, Hnone. }
  assert (H2 : fst (api_login check flt2 req2 w2)
               = Ok (StatusError "Invalid credentials", 401)).
  { unfold api_login, try_except.
    by rewrite (api_login_try_run _ flt2 req2 u2 p2 w2 Hc2), Hq2, Hfound, Hbad. }
  split; [by rewrite H1, H2|]. split; [exact H1|]. split; [discriminate|].
  intros flt req w H.
  destruct (api_login_try_cases check req) as [[u [p Hc]] | [[m Hm] | [e He]]].
  - exists u, p. unfold api_login, try_except in H.
    rewrite (api_login_try_run _ flt req u p w Hc) in H.
    destruct (user_query_fault flt); [discriminate|].
    destruct (first_by_username (db w) u) as [found|]; [|discriminate].
    exists found. split; [exact Hc|]. split; [reflexivity|].
    destruct (verify_password check found p); [reflexivity | discriminate].
  - unfold api_login, try_except in H. rewrite Hm in H. discriminate.
  - unfold api_login, try_except in H. rewrite He in H. discriminate.
Qed.

(** C3 (amended). In [api_login] a failing user lookup, status re-read
    or commit is answered 500 with the message "Server error: " followed by
    the text of the exception; in [is_active_account] a failing status query
    gives the default answer [True]; a failing audit write is swallowed. *)
Theorem store_failure_outcomes flt req u p w e :
  credentials req u p ->
  let server_error_response := (StatusError ("Server error: " +:+ e), 500) in
  (user_query_fault flt = Some e ->
   api_login check flt req w = (Ok server_error_response, w)) /\
  (forall user,
     user_query_fault flt = None ->
     first_by_username (db w) u = Some user ->
     verify_password check user p = true ->
     (status_query_fault flt = Some e ->
      api_login check flt req w = (Ok server_error_response, w)) /\
     (status_query_fault flt = None ->
      eligible (select_status (db w) (IAMUserAccount.user_id user)) = true ->
      commit_fault flt = Some e ->
      api_login check flt req w
      = (Ok server_error_response,
         set_session_user_id w (Some (IAMUserAccount.user_id user))))) /\
  (forall self,
     status_query_fault flt = Some e ->
     is_active_account flt self w = (Ok true, w)) /\
  (forall ev uid s d,
     audit_fault flt = Some e ->
     log_auth_event flt req ev uid s d w = (Ok tt, w)).
Proof.
  intros Hc resp. subst resp.
  split; [|split; [|split]].
  - intros Hq. unfold api_login, try_except.
    by rewrite (api_login_try_run _ flt req u p w Hc), Hq.
  - intros user Hq Hfound Hpw.
    rewrite (api_login_password_verified check flt req u p w user Hc Hq Hfound Hpw).
    unfold api_login_verified, try_except. rewrite api_login_status_check_run.
    split.
    + intros Hs. by rewrite Hs.
    + intros Hs Hel Hcm. rewrite Hs. cbv zeta. by rewrite Hel, Hcm.
  - intros self Hs. by rewrite is_active_account_run, Hs.
  - intros ev uid s d Ha. rewrite log_auth_event_run. unfold audited. by rewrite Ha.
Qed.

(** C4 (amended). When the status query finds no row for the user's id,
    [is_active_account] reports the account active and the login, resumed
    after the password check, is not refused: it goes on to [login_user],
    which sets the session token.  The commit that follows has no row to
    update and raises: [api_login] answers 500 with the text of the
    exception, and the form login lets the exception through.  When the
    status query raises, [is_active_account] reports the account active as
    well, while [api_login] answers 500 and establishes no login; the form
    login lets the exception through. *)
Theorem status_query_fail_open flt req now utcnow user w :
  (status_query_fault flt = None ->
   select_status (db w) (IAMUserAccount.user_id user) = None ->
   let e := match commit_fault flt with
            | Some e => e
            | None => stale_data_error flt
            end in
   is_active_account flt user w = (Ok true, w) /\
   api_login_verified flt req user w
   = (Ok (StatusError ("Server error: " +:+ e), 500),
      set_session_user_id w (Some (IAMUserAccount.user_id user))) /\
   fst (login_submit_status_check flt now utcnow user w) = Raised e) /\
  (forall e,
     status_query_fault flt = Some e ->
     is_active_account flt user w = (Ok true, w) /\
     api_login_verified flt req user w
     = (Ok (StatusError ("Server error: " +:+ e), 500), w) /\
     login_submit_status_check flt now utcnow user w = (Raised e, w) /\
     forall u p,
       credentials req u p -> user_query_fault flt = None ->
       first_by_username (db w) u = Some user ->
       verify_password check user p = true ->
       api_login check flt req w
       = (Ok (StatusError ("Server error: " +:+ e), 500), w)).
Proof.
  split.
  - intros Hs Hrow e. subst e. rewrite is_active_account_run, Hs, Hrow.
    split; [reflexivity|].
    assert (Hnone : get_by_user_id (db w) (IAMUserAccount.user_id user) = None).
    { unfold select_status in Hrow.
      by destruct (get_by_user_id (db w) (IAMUserAccount.user_id user)). }
    unfold api_login_verified, try_except.
    rewrite api_login_status_check_run, login_submit_status_check_run, Hs.
    cbv zeta. rewrite Hrow, Hnone. cbn [eligible].
    by destruct (commit_fault flt).
  - intros e Hs. rewrite is_active_account_run, Hs.
    split; [reflexivity|].
    assert (Hv : api_login_verified flt req user w
                 = (Ok (StatusError ("Server error: " +:+ e), 500), w)).
    { unfold api_login_verified, try_except.
      by rewrite api_login_status_check_run, Hs. }
    split; [exact Hv|].
    split; [by rewrite login_submit_status_check_run, Hs|].
    intros u p Hc Hq Hfound Hpw.
    by rewrite (api_login_password_verified check flt req u p w user Hc Hq Hfound Hpw).
Qed.

(** C7 (amended). A logout on an established session clears the client's
    session token, adds one [logout] row carrying the user's id to the audit
    log and answers 200 "Logged out"; the rows of [iam_auth_session] stay as
    they were.  A further logout on the ended session does not run the view:
    the gate answers it as unauthorized and nothing changes. *)
Theorem api_logout_established flt req w uid user :
  user_query_fault flt = None -> audit_fault flt = None ->
  session_user_id w = Some uid ->
  get_by_user_id (db w) uid = Some user ->
  let out := api_logout flt req w in
  fst out = Ok (Returned (StatusSuccess "Logged out", 200)) /\
  session_user_id (snd out) = None /\
  iam_auth_log (db (snd out))
    = (iam_auth_log (db w)
       ++ [new_auth_log req logout
             (Some (IAMUserAccount.user_id user)) true None])%list /\
  iam_auth_session (db (snd out)) = iam_auth_session (db w) /\
  api_logout flt req (snd out) = (Ok Unauthorized, snd out).
Proof.
  intros Hq Ha Htok Hrow out. subst out.
  rewrite (api_logout_run flt req w), Htok, Hq, Hrow.
  unfold audited. rewrite Ha. cbn [fst snd].
  split; [reflexivity|]. split; [reflexivity|]. split; [reflexivity|].
  split; [reflexivity|].
  by rewrite api_logout_run.
Qed.

End Claims.

(** ** The properties on the example scenario *)

Lemma alice_credentials (p : string) :
  p <> "" -> credentials (login_request "alice" p) "alice" p.
Proof. intros Hp. by apply login_request_credentials. Qed.

Lemma example_role_name_unique : role_name_unique example_store.
Proof.
  intros r1 r2 H1 H2 _. simpl in H1, H2.
  apply list_elem_of_singleton in H1, H2. by subst.
Qed.

Lemma rbac_membership_witness :
  has_any_role example_store alice ["auditor"; "admin"] = true /\
  has_role (roles_remove 1 10 example_store) alice "admin" = false /\
  has_role (roles_append 1 10 5 None (roles_remove 1 10 example_store))
    alice "admin" = true.
Proof.
  split; [|split].
  - apply (proj1 (proj2 (rbac_membership example_store alice))).
    exists "admin". split; [by apply list_elem_of_In; right; left | reflexivity].
  - exact (proj2 (proj2 (proj2 (rbac_membership example_store alice)))
             10 admin_role example_role_name_unique eq_refl).
  - exact (proj1 (proj2 (proj2
             (rbac_membership (roles_remove 1 10 example_store) alice)))
             10 admin_role 5 None eq_refl).
Defined.

(** On the example of C1, the login succeeds and [iam_auth_session] gets
    no new row. *)
Lemma api_login_creates_no_auth_session :
  let out := api_login example_check no_faults
               (login_request "alice" "Secr3t!") example_world in
  fst out = Ok (StatusSuccessUser alice_info, 200) /\
  ~ (exists s, iam_auth_session (db (snd out))
               = (iam_auth_session (db example_world) ++ [s])%list).
Proof.
  split; [by vm_compute|].
  intros [s H]. vm_compute in H. discriminate H.
Qed.

Lemma api_login_success_witness :
  let out := api_login example_check no_faults
               (login_request "alice" "Secr3t!") example_world in
  fst out = Ok (StatusSuccessUser alice_info, 200) /\
  session_user_id (snd out) = Some 1 /\
  iam_auth_session (db (snd out)) = [] /\
  iam_auth_log (db (snd out))
    = [IAMAuthLog.mk (Some 1) login_success 1000 (Some "10.0.0.1")
         (Some "curl/8") (Some "Event: login_success, Success: True")] /\
  IAMUserAccount.last_login_at <$> get_by_user_id (db (snd out)) 1
    = Some (Some 1000).
Proof.
  apply (api_login_success example_check no_faults
           (login_request "alice" "Secr3t!") "alice" "Secr3t!"
           example_world alice 1).
  - by apply alice_credentials.
  - reflexivity.
  - reflexivity.
  - reflexivity.
  - reflexivity.
  - reflexivity.
  - reflexivity.
  - reflexivity.
  - discriminate.
Defined.

(** C2. After [alice] has logged in and an administrator has set her
    [is_active] to false, [is_active] re-reads the status and answers
    false, and yet [api_verify] answers the session with 200 and
    [authenticated: true]: the gate never asks. *)
Lemma api_verify_after_disable :
  let w1 := snd (api_login example_check no_faults
                   (login_request "alice" "Secr3t!") example_world) in
  let w2 := set_db w1 (update_status 1 (Some 0) (Some 0) (db w1)) in
  session_user_id w2 = Some 1 /\
  select_status (db w2) 1 = Some (Some 0, Some 0) /\
  fst (is_active_method no_faults alice w2) = Ok false /\
  fst (api_verify no_faults w2) = Ok (Returned (AuthenticatedUser alice_info, 200)).
Proof. by vm_compute. Qed.

(** On the example of C3, with the account disabled in the store, a status
    query that times out makes [is_active_account] answer [True], the
    answer of a healthy store for an active account; the healthy store
    answers [False] here. *)
Lemma status_failure_reported_as_active :
  is_active_account status_timeout alice (mkWorld disabled_store None)
    = (Ok true, mkWorld disabled_store None) /\
  is_active_account no_faults alice (mkWorld disabled_store None)
    = (Ok false, mkWorld disabled_store None) /\
  is_active_account no_faults alice example_world = (Ok true, example_world).
Proof. by vm_compute. Qed.

Lemma store_failure_outcomes_witness :
  api_login example_check lookup_timeout
    (login_request "alice" "Secr3t!") example_world
    = (Ok (StatusError "Server error: timeout", 500), example_world) /\
  api_login example_check status_timeout
    (login_request "alice" "Secr3t!") example_world
    = (Ok (StatusError "Server error: timeout", 500), example_world) /\
  is_active_account status_timeout alice example_world = (Ok true, example_world) /\
  log_auth_event audit_timeout (login_request "alice" "Secr3t!")
    login_success (Some 1) true None example_world
    = (Ok tt, example_world).
Proof.
  split; [|split; [|split]].
  - apply (store_failure_outcomes example_check lookup_timeout
             (login_request "alice" "Secr3t!") "alice" "Secr3t!" example_world
             "timeout"); [by apply alice_credentials | reflexivity].
  - apply (store_failure_outcomes example_check status_timeout
             (login_request "alice" "Secr3t!") "alice" "Secr3t!" example_world
             "timeout" (alice_credentials "Secr3t!" ltac:(discriminate)))
      with (user := alice); reflexivity.
  - apply (store_failure_outcomes example_check status_timeout
             (login_request "alice" "Secr3t!") "alice" "Secr3t!" example_world
             "timeout" (alice_credentials "Secr3t!" ltac:(discriminate)));
      reflexivity.
  - apply (store_failure_outcomes example_check audit_timeout
             (login_request "alice" "Secr3t!") "alice" "Secr3t!" example_world
             "timeout" (alice_credentials "Secr3t!" ltac:(discriminate)));
      reflexivity.
Defined.

(** On the example of C4, a status query that times out during the login
    of [alice] with her password ends the request with 500: no login is
    established, the session token stays unset. *)
Lemma status_failure_blocks_login :
  api_login example_check status_timeout
    (login_request "alice" "Secr3t!") example_world
  = (Ok (StatusError "Server error: timeout", 500), example_world) /\
  session_user_id example_world = None.
Proof. by vm_compute. Qed.

Lemma status_query_fail_open_witness :
  (is_active_account no_faults alice (mkWorld deleted_store None)
     = (Ok true, mkWorld deleted_store None) /\
   api_login_verified no_faults (login_request "alice" "Secr3t!")
     alice (mkWorld deleted_store None)
     = (Ok (StatusError "Server error: StaleDataError", 500),
        mkWorld deleted_store (Some 1)) /\
   fst (login_submit_status_check no_faults 1000 1001 alice
          (mkWorld deleted_store None))
     = Raised "StaleDataError") /\
  (is_active_account status_timeout alice example_world = (Ok true, example_world) /\
   api_login example_check status_timeout
     (login_request "alice" "Secr3t!") example_world
     = (Ok (StatusError "Server error: timeout", 500), example_world)).
Proof.
  split.
  - destruct (status_query_fail_open example_check no_faults
                (login_request "alice" "Secr3t!") 1000 1001 alice
                (mkWorld deleted_store None)) as [Hrow _].
    exact (Hrow eq_refl eq_refl).
  - destruct (status_query_fail_open example_check status_timeout
                (login_request "alice" "Secr3t!") 1000 1001 alice example_world)
      as [_ Hraise].
    destruct (Hraise "timeout" eq_refl) as [Hact [_ [_ Hlogin]]].
    split; [exact Hact|].
    apply (Hlogin "alice" "Secr3t!"); [by apply alice_credentials | reflexivity..].
Defined.

Lemma api_login_invalid_credentials_witness :
  (let out := api_login example_check no_faults
                (login_request "alice" "wrong") example_world in
   fst out = Ok (StatusError "Invalid credentials", 401) /\
   (exists log,
       iam_auth_log (db (snd out)) = [log] /\
       IAMAuthLog.event_type log = login_failed /\
       IAMAuthLog.user_id log = Some 1) /\
   iam_auth_session (db (snd out)) = [] /\
   session_user_id (snd out) = None) /\
  (let out := api_login example_check no_faults
                (login_request "bob" "Secr3t!") example_world in
   fst out = Ok (StatusError "Invalid credentials", 401) /\
   (exists log,
       iam_auth_log (db (snd out)) = [log] /\
       IAMAuthLog.event_type log = login_failed /\
       IAMAuthLog.user_id log = None) /\
   iam_auth_session (db (snd out)) = [] /\
   session_user_id (snd out) = None).
Proof.
  split.
  - apply (api_login_invalid_credentials example_check no_faults
             (login_request "alice" "wrong") "alice" "wrong" example_world).
    + by apply alice_credentials.
    + reflexivity.
    + reflexivity.
    + right. exists alice. split; [reflexivity|]. right. reflexivity.
  - apply (api_login_invalid_credentials example_check no_faults
             (login_request "bob" "Secr3t!") "bob" "Secr3t!" example_world).
    + by apply login_request_credentials.
    + reflexivity.
    + reflexivity.
    + left. reflexivity.
Defined.

Lemma api_login_account_disabled_witness :
  let out := api_login example_check no_faults
               (login_request "alice" "Secr3t!") (mkWorld locked_store None) in
  fst out = Ok (StatusError "Account disabled or locked", 403) /\
  iam_auth_log (db (snd out))
    = [IAMAuthLog.mk (Some 1) login_failed 1000 (Some "10.0.0.1")
         (Some "curl/8") (Some "Account locked/inactive")] /\
  session_user_id (snd out) = None /\
  iam_user_account (db (snd out)) = iam_user_account locked_store /\
  iam_role (db (snd out)) = iam_role locked_store /\
  iam_user_role (db (snd out)) = iam_user_role locked_store /\
  iam_auth_session (db (snd out)) = iam_auth_session locked_store.
Proof.
  assert (Hdis : Some 1 = Some 0 \/ exists v, Some 1 = Some v /\ v <> 0).
  { right. exists 1. split; [reflexivity | discriminate]. }
  exact (proj1 (api_login_account_disabled example_check no_faults
                  (login_request "alice" "Secr3t!") "alice" "Secr3t!"
                  (mkWorld locked_store None)
                  (IAMUserAccount.with_status alice (Some 1) (Some 1))
                  (Some 1) (Some 1)
                  (alice_credentials "Secr3t!" ltac:(discriminate))
                  eq_refl eq_refl eq_refl eq_refl eq_refl eq_refl Hdis)).
Defined.

(** C9. The login of [alice] with her password succeeds with 200 while the
    audit write succeeds.  When the audit write fails, [log_auth_event]
    itself returns normally, and yet the same login is answered 500: the
    failed write has left the ORM session with a rolled-back transaction,
    and the read of the user for the response raises.  The login is
    established all the same: the session token is set. *)
Theorem audit_failure_fails_login :
  let req := login_request "alice" "Secr3t!" in
  log_auth_event audit_timeout req login_success (Some 1) true None
    example_world = (Ok tt, example_world) /\
  fst (api_login example_check no_faults req example_world)
    = Ok (StatusSuccessUser alice_info, 200) /\
  fst (api_login example_check audit_timeout req example_world)
    = Ok (StatusError "Server error: PendingRollbackError", 500) /\
  session_user_id (snd (api_login example_check audit_timeout req example_world))
    = Some 1.
Proof. by vm_compute. Qed.

(** On the example of C7, the logout of an established session leaves the
    active row of [iam_auth_session] without a [logout_time], and a second
    logout on the ended session is answered by the gate as unauthorized,
    not with a success. *)
Lemma api_logout_leaves_session_row :
  let out := api_logout no_faults empty_request session_world in
  fst out = Ok (Returned (StatusSuccess "Logged out", 200)) /\
  map IAMAuthSession.logout_time (iam_auth_session (db (snd out))) = [None] /\
  fst (api_logout no_faults empty_request (snd out)) = Ok Unauthorized.
Proof. by vm_compute. Qed.

Lemma api_logout_established_witness :
  let out := api_logout no_faults empty_request session_world in
  fst out = Ok (Returned (StatusSuccess "Logged out", 200)) /\
  session_user_id (snd out) = None /\
  iam_auth_log (db (snd out))
    = [IAMAuthLog.mk (Some 1) logout 2000 (Some "10.0.0.1") (Some "curl/8")
         (Some "Event: logout, Success: True")] /\
  iam_auth_session (db (snd out)) = [alice_session] /\
  api_logout no_faults empty_request (snd out) = (Ok Unauthorized, snd out).
Proof.
  exact (api_logout_established no_faults empty_request session_world 1 alice
           eq_refl eq_refl eq_refl eq_refl).
Defined.

Lemma invalid_credentials_indistinguishable_witness :
  fst (api_login example_check no_faults
         (login_request "bob" "Secr3t!") example_world)
  = fst (api_login example_check no_faults
           (login_request "alice" "wrong") example_world).
Proof.
  apply (invalid_credentials_indistinguishable example_check
           no_faults no_faults
           (login_request "bob" "Secr3t!") (login_request "alice" "wrong")
           "bob" "Secr3t!" "alice" "wrong" example_world example_world alice).
  - by apply login_request_credentials.
  - by apply alice_credentials.
  - reflexivity.
  - reflexivity.
  - reflexivity.
  - reflexivity.
  - reflexivity.
Defined.


(** * Further properties of the handlers *)

Lemma login_submit_run check flt u p now utcnow w :
  login_submit check flt u p now utcnow w =
  match user_query_fault flt with
  | Some e => (Raised e, w)
  | None =>
      match first_by_username (db w) u with
      | None => (Ok invalid_credentials_flash, w)
      | Some user =>
          if verify_password check user p
          then login_submit_status_check flt now utcnow user w
          else (Ok invalid_credentials_flash, w)
      end
  end.
Proof.
  unfold login_submit, query_filter_by_username. run_monad.
  destruct (user_query_fault flt); [reflexivity|].
  destruct (first_by_username (db w) u) as [user|]; [|reflexivity].
  by destruct (verify_password check user p).
Qed.

(** X1. The form login answers an unknown username and a wrong password
    alike, with the flash "Invalid credentials" and a redirect to the login
    page, and changes nothing. *)
Theorem login_submit_invalid_credentials
        check flt u1 p1 u2 p2 now1 now2 utcnow1 utcnow2 w1 w2 user :
  user_query_fault flt = None ->
  first_by_username (db w1) u1 = None ->
  first_by_username (db w2) u2 = Some user ->
  verify_password check user p2 = false ->
  login_submit check flt u1 p1 now1 utcnow1 w1
    = (Ok (Redirect "auth.login_page" (Some ("Invalid credentials", "error"))), w1) /\
  login_submit check flt u2 p2 now2 utcnow2 w2
    = (Ok (Redirect "auth.login_page" (Some ("Invalid credentials", "error"))), w2).
Proof.
  intros Hq Hnone Hfound Hbad. rewrite !login_submit_run, Hq, Hnone, Hfound, Hbad.
  done.
Qed.

Lemma login_submit_invalid_credentials_witness :
  login_submit example_check no_faults "bob" "Secr3t!" 1000 1001 example_world
    = (Ok invalid_credentials_flash, example_world) /\
  login_submit example_check no_faults "alice" "wrong" 1000 1001 example_world
    = (Ok invalid_credentials_flash, example_world).
Proof.
  exact (login_submit_invalid_credentials example_check no_faults
           "bob" "Secr3t!" "alice" "wrong" 1000 1000 1001 1001
           example_world example_world alice eq_refl eq_refl eq_refl eq_refl).
Defined.

(** X2. Whatever the form and whichever store calls fail, the form login
    writes no audit-log row and no session row, and leaves the roles and
    their assignments alone. *)
Theorem login_submit_writes_no_log check flt u p now utcnow w :
  let w' := snd (login_submit check flt u p now utcnow w) in
  iam_auth_log (db w') = iam_auth_log (db w) /\
  iam_auth_session (db w') = iam_auth_session (db w) /\
  iam_role (db w') = iam_role (db w) /\
  iam_user_role (db w') = iam_user_role (db w).
Proof.
  cbv zeta. rewrite login_submit_run.
  destruct (user_query_fault flt); [done|].
  destruct (first_by_username (db w) u) as [user|]; [|done].
  destruct (verify_password check user p); [|done].
  rewrite login_submit_status_check_run.
  destruct (status_query_fault flt); [done|]. cbv zeta.
  destruct (eligible _); [|done].
  destruct (commit_fault flt); [done|].
  by destruct (get_by_user_id (db w) (IAMUserAccount.user_id user)).
Qed.

Lemma api_login_run check flt req u p w :
  credentials req u p ->
  api_login check flt req w =
  match user_query_fault flt with
  | Some e => (Ok (StatusError ("Server error: " +:+ e), 500), w)
  | None =>
      match first_by_username (db w) u with
      | None =>
          (Ok invalid_credentials_response,
           audited flt (new_auth_log req login_failed None false
                          (Some ("User not found: " +:+ u))) w)
      | Some user =>
          if verify_password check user p
          then api_login_verified flt req user w
          else
            (Ok invalid_credentials_response,
             audited flt (new_auth_log req login_failed
                            (Some (IAMUserAccount.user_id user)) false
                            (Some "Invalid password")) w)
      end
  end.
Proof.
  intros Hc. unfold api_login, api_login_verified, try_except.
  rewrite (api_login_try_run check flt req u p w Hc).
  destruct (user_query_fault flt); [reflexivity|].
  destruct (first_by_username (db w) u) as [user|]; [|reflexivity].
  by destruct (verify_password check user p).
Qed.

Lemma api_login_verified_run flt req user w :
  api_login_verified flt req user w =
  match status_query_fault flt with
  | Some e => (Ok (StatusError ("Server error: " +:+ e), 500), w)
  | None =>
      let uid := IAMUserAccount.user_id user in
      if eligible (select_status (db w) uid) then
        let w1 := set_session_user_id w (Some uid) in
        match commit_fault flt with
        | Some e => (Ok (StatusError ("Server error: " +:+ e), 500), w1)
        | None =>
            match get_by_user_id (db w) uid with
            | None =>
                (Ok (StatusError ("Server error: " +:+ stale_data_error flt), 500),
                 w1)
            | Some _ =>
                let w2 := set_db w1 (set_last_login_at uid (utcnow req)
                                       (utcnow req) (db w)) in
                match user_query_fault flt with
                | Some e => (Ok (StatusError ("Server error: " +:+ e), 500), w2)
                | None =>
                    match audit_fault flt with
                    | Some _ =>
                        (Ok (StatusError
                               ("Server error: " +:+ pending_rollback_error flt),
                             500), w2)
                    | None =>
                        (Ok (StatusSuccessUser (user_info (db w) user), 200),
                         set_db w2
                           (add_auth_log
                              (new_auth_log req login_success (Some uid) true None)
                              (db w2)))
                    end
                end
            end
        end
      else
        (Ok account_disabled_response,
         audited flt (new_auth_log req login_failed (Some uid) false
                        (Some "Account locked/inactive")) w)
  end.
Proof.
  unfold api_login_verified, try_except. rewrite api_login_status_check_run.
  destruct (status_query_fault flt); [reflexivity|]. cbv zeta.
  destruct (eligible _); [|reflexivity].
  destruct (commit_fault flt); [reflexivity|].
  destruct (get_by_user_id (db w) (IAMUserAccount.user_id user)); [|reflexivity].
  destruct (user_query_fault flt); [reflexivity|].
  by destruct (audit_fault flt).
Qed.


Lemma map_forget_set_last_login_at (uid ts upd : Z) (l : list IAMUserAccount.t) :
  map forget_login_stamps
    (map (fun u => if IAMUserAccount.user_id u =? uid
                   then IAMUserAccount.with_updated_at
                          (IAMUserAccount.with_last_login_at u ts) upd
                   else u) l)
  = map forget_login_stamps l.
Proof.
  rewrite map_map. apply map_ext. intros u.
  by destruct (IAMUserAccount.user_id u =? uid).
Qed.



(** X4. The gate in front of a protected view: without a session token, or
    with the token of a user whose row is gone, the view does not run and
    the login manager's unauthorized handling answers; when loading the
    user fails in the store, the exception leaves the request before the
    view, so that the view's own error handler never sees it.  Nothing
    changes in any of the three cases. *)
Theorem login_required_refuses flt (view : IAMUserAccount.t -> M Response) w :
  (session_user_id w = None ->
   login_required flt view w = (Ok Unauthorized, w)) /\
  (forall uid,
     session_user_id w = Some uid -> user_query_fault flt = None ->
     get_by_user_id (db w) uid = None ->
     login_required flt view w = (Ok Unauthorized, w)) /\
  (forall uid e,
     session_user_id w = Some uid -> user_query_fault flt = Some e ->
     login_required flt view w = (Raised e, w)).
Proof.
  rewrite login_required_run. split; [|split].
  - by intros ->.
  - by intros uid -> -> ->.
  - by intros uid e -> ->.
Qed.

Lemma login_required_refuses_witness :
  api_verify no_faults example_world = (Ok Unauthorized, example_world) /\
  api_verify no_faults (mkWorld deleted_store (Some 1))
    = (Ok Unauthorized, mkWorld deleted_store (Some 1)) /\
  api_logout lookup_timeout empty_request session_world
    = (Raised "timeout", session_world).
Proof.
  split; [|split].
  - exact (proj1 (login_required_refuses no_faults _ example_world) eq_refl).
  - exact (proj1 (proj2 (login_required_refuses no_faults _
                           (mkWorld deleted_store (Some 1))))
             1 eq_refl eq_refl eq_refl).
  - exact (proj2 (proj2 (login_required_refuses lookup_timeout _ session_world))
             1 "timeout" eq_refl eq_refl).
Defined.

Lemma get_by_user_id_after_login (st : Store) (uid ts upd : Z)
      (user : IAMUserAccount.t) :
  get_by_user_id st uid = Some user ->
  IAMUserAccount.user_id user = uid ->
  get_by_user_id (set_last_login_at uid ts upd st) uid
    = Some (IAMUserAccount.with_updated_at
              (IAMUserAccount.with_last_login_at user ts) upd).
Proof.
  intros Hrow Hid. unfold get_by_user_id, set_last_login_at. simpl.
  rewrite find_user_id_map.
  - unfold get_by_user_id in Hrow. rewrite Hrow. simpl.
    rewrite Hid, Z.eqb_refl. reflexivity.
  - intros u. by destruct (IAMUserAccount.user_id u =? uid).
Qed.

Lemma get_by_user_id_audited flt log w uid :
  get_by_user_id (db (audited flt log w)) uid = get_by_user_id (db w) uid.
Proof. unfold audited. by destruct (audit_fault flt). Qed.

Lemma select_status_of_row (st : Store) (user : IAMUserAccount.t) :
  get_by_user_id st (IAMUserAccount.user_id user) = Some user ->
  select_status st (IAMUserAccount.user_id user)
    = Some (IAMUserAccount.is_active user, IAMUserAccount.is_locked user).
Proof. intros H. unfold select_status. by rewrite H. Qed.

(** X5. Login, then verify: a login that gets as far as the commit of
    [last_login_at] answers 200 with the user's identity and role names
    when the audit write works, and 500 when it fails; either way the
    session is established, and the verify call on it answers 200 with
    that identity and those role names, and changes nothing. *)
Theorem api_login_then_verify check flt req u p w user :
  credentials req u p ->
  user_query_fault flt = None -> status_query_fault flt = None ->
  commit_fault flt = None ->
  first_by_username (db w) u = Some user ->
  get_by_user_id (db w) (IAMUserAccount.user_id user) = Some user ->
  verify_password check user p = true ->
  eligible (Some (IAMUserAccount.is_active user, IAMUserAccount.is_locked user))
    = true ->
  let out := api_login check flt req w in
  (audit_fault flt = None ->
   fst out = Ok (StatusSuccessUser (user_info (db w) user), 200)) /\
  (audit_fault flt <> None ->
   fst out = Ok (StatusError ("Server error: " +:+ pending_rollback_error flt),
                 500)) /\
  api_verify flt (snd out)
    = (Ok (Returned (AuthenticatedUser (user_info (db w) user), 200)), snd out).
Proof.
  intros Hc Hq Hs Hcm Hfound Hrow Hpw Hel out. subst out.
  rewrite (api_login_run check flt req u p w Hc), Hq, Hfound, Hpw.
  rewrite api_login_verified_run, Hs. cbv zeta.
  rewrite (select_status_of_row _ _ Hrow), Hel, Hcm, Hrow, Hq.
  destruct (audit_fault flt) as [e|]; cbn [fst snd].
  - split; [discriminate|]. split; [reflexivity|].
    rewrite api_verify_run, Hq.
    cbn [session_user_id set_db set_session_user_id db].
    by rewrite (get_by_user_id_after_login _ _ _ _ user Hrow eq_refl).
  - split; [reflexivity|]. split; [done|].
    rewrite api_verify_run, Hq.
    cbn [session_user_id set_db set_session_user_id db].
    assert (Hlog : forall log st uid,
               get_by_user_id (add_auth_log log st) uid = get_by_user_id st uid)
      by reflexivity.
    by rewrite Hlog, (get_by_user_id_after_login _ _ _ _ user Hrow eq_refl).
Qed.

Lemma api_login_then_verify_witness :
  fst (api_login example_check no_faults
         (login_request "alice" "Secr3t!") example_world)
  = Ok (StatusSuccessUser alice_info, 200) /\
  fst (api_login example_check audit_timeout
         (login_request "alice" "Secr3t!") example_world)
  = Ok (StatusError "Server error: PendingRollbackError", 500) /\
  fst (api_verify audit_timeout
         (snd (api_login example_check audit_timeout
                 (login_request "alice" "Secr3t!") example_world)))
  = Ok (Returned (AuthenticatedUser alice_info, 200)).
Proof.
  split; [|split].
  - exact (proj1 (api_login_then_verify example_check no_faults
                    (login_request "alice" "Secr3t!") "alice" "Secr3t!"
                    example_world alice
                    (alice_credentials "Secr3t!" ltac:(discriminate))
                    eq_refl eq_refl eq_refl eq_refl eq_refl eq_refl eq_refl)
             eq_refl).
  - exact (proj1 (proj2 (api_login_then_verify example_check audit_timeout
                    (login_request "alice" "Secr3t!") "alice" "Secr3t!"
                    example_world alice
                    (alice_credentials "Secr3t!" ltac:(discriminate))
                    eq_refl eq_refl eq_refl eq_refl eq_refl eq_refl eq_refl))
             ltac:(discriminate)).
  - exact (f_equal fst
             (proj2 (proj2 (api_login_then_verify example_check audit_timeout
                    (login_request "alice" "Secr3t!") "alice" "Secr3t!"
                    example_world alice
                    (alice_credentials "Secr3t!" ltac:(discriminate))
                    eq_refl eq_refl eq_refl eq_refl eq_refl eq_refl eq_refl)))).
Defined.

(** X6. Logout, then verify: once a logout has answered, the verify call
    of the same client is refused by the gate, whether or not the audit
    write of the logout succeeded. *)
Theorem api_logout_then_verify flt req w uid user :
  user_query_fault flt = None ->
  session_user_id w = Some uid ->
  get_by_user_id (db w) uid = Some user ->
  let out := api_logout flt req w in
  fst out = Ok (Returned (StatusSuccess "Logged out", 200)) /\
  api_verify flt (snd out) = (Ok Unauthorized, snd out).
Proof.
  intros Hq Htok Hrow out. subst out.
  rewrite api_logout_run, Htok, Hq, Hrow. cbn [fst snd].
  split; [reflexivity|].
  by rewrite api_verify_run, audited_session_user_id.
Qed.

Lemma api_logout_then_verify_witness :
  api_verify audit_timeout (snd (api_logout audit_timeout empty_request session_world))
  = (Ok Unauthorized, mkWorld (db session_world) None).
Proof.
  exact (proj2 (api_logout_then_verify audit_timeout empty_request session_world
                  1 alice eq_refl eq_refl eq_refl)).
Defined.

(** X7. A login whose commit of [last_login_at] fails answers 500, and yet
    the client is logged in: the session token was set before the commit,
    and the next verify call answers 200 for the user. *)
Theorem api_login_commit_failure_logs_in check flt req u p w user e :
  credentials req u p ->
  user_query_fault flt = None -> status_query_fault flt = None ->
  commit_fault flt = Some e ->
  first_by_username (db w) u = Some user ->
  get_by_user_id (db w) (IAMUserAccount.user_id user) = Some user ->
  verify_password check user p = true ->
  eligible (Some (IAMUserAccount.is_active user, IAMUserAccount.is_locked user))
    = true ->
  let out := api_login check flt req w in
  fst out = Ok (StatusError ("Server error: " +:+ e), 500) /\
  db (snd out) = db w /\
  api_verify flt (snd out)
    = (Ok (Returned (AuthenticatedUser (user_info (db w) user), 200)), snd out).
Proof.
  intros Hc Hq Hs Hcm Hfound Hrow Hpw Hel out. subst out.
  rewrite (api_login_run check flt req u p w Hc), Hq, Hfound, Hpw.
  rewrite api_login_verified_run, Hs. cbv zeta.
  rewrite (select_status_of_row _ _ Hrow), Hel, Hcm. cbn [fst snd].
  split; [reflexivity|]. split; [reflexivity|].
  rewrite api_verify_run, Hq. cbn [session_user_id set_session_user_id db].
  by rewrite Hrow.
Qed.

Lemma api_login_commit_failure_logs_in_witness :
  let flt := commit_deadlock in
  let out := api_login example_check flt
               (login_request "alice" "Secr3t!") example_world in
  fst out = Ok (StatusError "Server error: deadlock", 500) /\
  db (snd out) = example_store /\
  api_verify flt (snd out)
    = (Ok (Returned (AuthenticatedUser alice_info, 200)), snd out).
Proof.
  exact (api_login_commit_failure_logs_in example_check commit_deadlock
           (login_request "alice" "Secr3t!") "alice" "Secr3t!"
           example_world alice "deadlock"
           (alice_credentials "Secr3t!" ltac:(discriminate))
           eq_refl eq_refl eq_refl eq_refl eq_refl eq_refl eq_refl).
Defined.

Lemma audited_rows flt log w :
  exists rows,
    iam_auth_log (db (audited flt log w)) = (iam_auth_log (db w) ++ rows)%list /\
    (length rows <= 1)%nat /\
    (audit_fault flt = None -> length rows = 1%nat).
Proof.
  unfold audited. destruct (audit_fault flt).
  - exists []. rewrite app_nil_r. split; [done|]. split; [simpl; lia | done].
  - exists [log]. split; [done|]. split; [simpl; lia | done].
Qed.

(** X8. The REST login never lets an exception out: it always answers, with
    one of the statuses 200, 400, 401, 403 and 500.  It never alters or
    removes a row of the audit log and adds at most one: none when it
    answers 400, none when the audit write fails, and exactly one when the
    audit write works and the answer is 200, 401 or 403. *)
Theorem api_login_audit_rows check flt req w :
  let out := api_login check flt req w in
  exists body status rows,
    fst out = Ok (body, status) /\
    (status = 200 \/ status = 400 \/ status = 401 \/ status = 403 \/ status = 500) /\
    iam_auth_log (db (snd out)) = (iam_auth_log (db w) ++ rows)%list /\
    (length rows <= 1)%nat /\
    (status = 400 -> rows = []) /\
    (audit_fault flt <> None -> rows = []) /\
    (audit_fault flt = None ->
     status = 200 \/ status = 401 \/ status = 403 -> length rows = 1%nat).
Proof.
  cbv zeta.
  pose (P := fun out : result Response * World =>
    exists body status rows,
      fst out = Ok (body, status) /\
      (status = 200 \/ status = 400 \/ status = 401 \/ status = 403
       \/ status = 500) /\
      iam_auth_log (db (snd out)) = (iam_auth_log (db w) ++ rows)%list /\
      (length rows <= 1)%nat /\
      (status = 400 -> rows = []) /\
      (audit_fault flt <> None -> rows = []) /\
      (audit_fault flt = None ->
       status = 200 \/ status = 401 \/ status = 403 -> length rows = 1%nat)).
  change (P (api_login check flt req w)).
  assert (Hnone : forall body status w0,
             iam_auth_log (db w0) = iam_auth_log (db w) ->
             status = 400 \/ status = 500 ->
             P (Ok (body, status), w0)).
  { intros body status w0 Hw0 Hst. exists body, status, []. cbn [fst snd].
    rewrite app_nil_r. split; [done|]. split; [lia|]. split; [done|].
    split; [simpl; lia|]. split; [done|]. split; [done|]. intros _ H. lia. }
  assert (Hone : forall body status log w0,
             iam_auth_log (db w0) = iam_auth_log (db w) ->
             status = 200 \/ status = 401 \/ status = 403 ->
             P (Ok (body, status), audited flt log w0)).
  { intros body status log w0 Hw0 Hst. unfold audited.
    destruct (audit_fault flt) as [e|].
    - exists body, status, []. cbn [fst snd]. rewrite app_nil_r.
      split; [done|]. split; [lia|]. split; [done|]. split; [simpl; lia|].
      split; [done|]. split; [done|]. discriminate.
    - exists body, status, [log]. cbn [fst snd db set_db add_auth_log iam_auth_log].
      rewrite Hw0. split; [done|]. split; [lia|]. split; [done|].
      split; [simpl; lia|]. split; [lia|]. split; [done|]. done. }
  destruct (api_login_try_cases check req) as [[u [p Hc]] | [[m Hm] | [e He]]].
  - rewrite (api_login_run check flt req u p w Hc).
    destruct (user_query_fault flt) eqn:Hq; [apply Hnone; [done | lia]|].
    destruct (first_by_username (db w) u) as [user|];
      [|apply Hone; [done | lia]].
    destruct (verify_password check user p); [|apply Hone; [done | lia]].
    rewrite api_login_verified_run, Hq.
    destruct (status_query_fault flt); [apply Hnone; [done | lia]|]. cbv zeta.
    destruct (eligible _); [|apply Hone; [done | lia]].
    destruct (commit_fault flt); [apply Hnone; [done | lia]|].
    destruct (get_by_user_id (db w) (IAMUserAccount.user_id user));
      [|apply Hnone; [done | lia]].
    destruct (audit_fault flt) eqn:Ha; [apply Hnone; [done | lia]|].
    pose proof (Hone (StatusSuccessUser (user_info (db w) user)) 200
                  (new_auth_log req login_success
                     (Some (IAMUserAccount.user_id user)) true None)
                  (set_db (set_session_user_id w
                             (Some (IAMUserAccount.user_id user)))
                     (set_last_login_at (IAMUserAccount.user_id user)
                        (utcnow req) (utcnow req) (db w)))
                  eq_refl ltac:(lia)) as H.
    unfold audited in H. rewrite Ha in H. exact H.
  - unfold api_login, try_except. rewrite Hm. apply Hnone; [done | lia].
  - unfold api_login, try_except. rewrite He. apply Hnone; [done | lia].
Qed.

Lemma api_login_audit_rows_witness :
  exists body status rows,
    fst (api_login example_check no_faults (login_request "alice" "wrong")
           example_world) = Ok (body, status) /\
    iam_auth_log (db (snd (api_login example_check no_faults
                             (login_request "alice" "wrong") example_world)))
      = rows /\
    length rows = 1%nat.
Proof.
  destruct (api_login_audit_rows example_check no_faults
              (login_request "alice" "wrong") example_world)
    as [body [status [rows [Hfst [Hstatus [Hrows [Hle [_ [_ Hone]]]]]]]]].
  exists body, status, rows. split; [exact Hfst|]. split; [exact Hrows|].
  apply (Hone eq_refl).
  vm_compute in Hfst. injection Hfst as _ Hst. right. left. symmetry. exact Hst.
Defined.


(** The case analysis that shows which tables a REST login leaves alone. *)
Ltac api_login_tables_cases check flt req w :=
  let Haud := fresh "Haud" in
  assert (Haud : forall log w0,
             iam_role (db (audited flt log w0)) = iam_role (db w0) /\
             iam_user_role (db (audited flt log w0)) = iam_user_role (db w0) /\
             iam_auth_session (db (audited flt log w0)) = iam_auth_session (db w0) /\
             map forget_login_stamps (iam_user_account (db (audited flt log w0)))
               = map forget_login_stamps (iam_user_account (db w0)))
    by (intros log w0; unfold audited; by destruct (audit_fault flt));
  let u := fresh "u" in let p := fresh "p" in
  let Hc := fresh "Hc" in let m := fresh "m" in let Hm := fresh "Hm" in
  let e := fresh "e" in let He := fresh "He" in
  destruct (api_login_try_cases check req) as [[u [p Hc]] | [[m Hm] | [e He]]];
  [ rewrite (api_login_run check flt req u p w Hc);
    destruct (user_query_fault flt); [done|];
    destruct (first_by_username (db w) u) as [user|]; [|apply Haud];
    destruct (verify_password check user p); [|apply Haud];
    rewrite api_login_verified_run;
    destruct (status_query_fault flt); [done|]; cbv zeta;
    destruct (eligible _); [|apply Haud];
    destruct (commit_fault flt); [done|];
    destruct (get_by_user_id (db w) (IAMUserAccount.user_id user)); [|done];
    destruct (user_query_fault flt);
      [ cbn [snd db set_db set_session_user_id set_last_login_at
               iam_role iam_user_role iam_auth_session iam_user_account];
        by rewrite map_forget_set_last_login_at |];
    destruct (audit_fault flt);
      cbn [snd db set_db set_session_user_id set_last_login_at add_auth_log
             iam_role iam_user_role iam_auth_session iam_user_account];
      by rewrite map_forget_set_last_login_at
  | unfold api_login, try_except; by rewrite Hm
  | unfold api_login, try_except; by rewrite He ].

Lemma api_login_tables check flt req w :
  iam_role (db (snd (api_login check flt req w))) = iam_role (db w) /\
  iam_user_role (db (snd (api_login check flt req w))) = iam_user_role (db w) /\
  iam_auth_session (db (snd (api_login check flt req w))) = iam_auth_session (db w) /\
  map forget_login_stamps (iam_user_account (db (snd (api_login check flt req w))))
    = map forget_login_stamps (iam_user_account (db w)).
Proof. api_login_tables_cases check flt req w. Qed.

(** X9. Whatever the request and whichever store calls fail, the REST
    login leaves the roles, the role assignments and the session rows as
    they were, and in the user table changes nothing but the two time
    stamps of its UPDATE, [last_login_at] and [updated_at]: no row is added
    or removed, and no username, password hash or status flag is
    touched. *)
Theorem api_login_preserves check flt req w :
  let w' := snd (api_login check flt req w) in
  iam_role (db w') = iam_role (db w) /\
  iam_user_role (db w') = iam_user_role (db w) /\
  iam_auth_session (db w') = iam_auth_session (db w) /\
  map forget_login_stamps (iam_user_account (db w'))
    = map forget_login_stamps (iam_user_account (db w)).
Proof. cbv zeta. api_login_tables_cases check flt req w. Qed.

(** X10. A request on which [get_json()] raises, as it does without a
    JSON body, is answered 500 with the text of the exception; the JSON
    value [null] and an empty object are answered 400 "Invalid request"; an
    object in which the username or the password is missing or empty is
    answered 400 "Username and password required".  None of them touches
    the store: the answer comes whichever store calls would fail, and
    nothing changes. *)
Theorem api_login_incomplete_request check flt req w :
  (forall e,
     json req = Raised e ->
     api_login check flt req w
     = (Ok (StatusError ("Server error: " +:+ e), 500), w)) /\
  ((json req = Ok None \/ json req = Ok (Some ∅)) ->
   api_login check flt req w = (Ok (StatusError "Invalid request", 400), w)) /\
  (forall d,
     json req = Ok (Some d) -> d <> ∅ ->
     (d !! "username" = None \/ d !! "username" = Some ""
      \/ d !! "password" = None \/ d !! "password" = Some "") ->
     api_login check flt req w
     = (Ok (StatusError "Username and password required", 400), w)).
Proof.
  unfold api_login, try_except, api_login_try, get_json.
  split; [|split].
  - by intros e ->.
  - intros [-> | ->]; reflexivity.
  - intros d -> Hne Hmiss. unfold bind at 1. cbn [truthy_dict].
    assert (Hsz : (size d =? 0)%nat = false).
    { apply Nat.eqb_neq. intros Hsz. by apply map_size_empty_iff in Hsz. }
    rewrite Hsz. cbn [negb from_option id].
    destruct Hmiss as [H | [H | [H | H]]]; rewrite H; cbn [truthy_str negb orb].
    + reflexivity.
    + reflexivity.
    + by rewrite orb_true_r.
    + by rewrite orb_true_r.
Qed.

Lemma api_login_incomplete_request_witness :
  api_login example_check lookup_timeout empty_request example_world
    = (Ok (StatusError "Server error: 415 Unsupported Media Type", 500),
       example_world) /\
  api_login example_check lookup_timeout
    (mkRequest (Ok None) (Some "10.0.0.1") (Some "curl/8") 2000) example_world
    = (Ok (StatusError "Invalid request", 400), example_world) /\
  api_login example_check lookup_timeout (login_request "alice" "") example_world
    = (Ok (StatusError "Username and password required", 400), example_world).
Proof.
  split; [|split].
  - exact (proj1 (api_login_incomplete_request example_check lookup_timeout
                    empty_request example_world)
             "415 Unsupported Media Type" eq_refl).
  - apply (proj1 (proj2 (api_login_incomplete_request example_check lookup_timeout
                           (mkRequest (Ok None) (Some "10.0.0.1") (Some "curl/8")
                              2000)
                           example_world))).
    by left.
  - apply (proj2 (proj2 (api_login_incomplete_request example_check lookup_timeout
                    (login_request "alice" "") example_world))
             {[ "username" := "alice"; "password" := "" ]} eq_refl).
    + intros H. apply (f_equal (fun m => m !! "username")) in H.
      rewrite lookup_insert_eq, lookup_empty in H. discriminate H.
    + right. right. right. rewrite lookup_insert_ne by done.
      by rewrite lookup_singleton_eq.
Defined.

(** X11. While the status query answers, [is_active_account] and the two
    logins read the status alike: it reports the account inactive exactly
    when the REST login answers 403 and exactly when the form login flashes
    "Account disabled / locked", for a user whose password was accepted. *)
Theorem is_active_account_agrees_with_login flt req now utcnow' user w :
  status_query_fault flt = None ->
  (fst (is_active_account flt user w) = Ok false <->
   fst (api_login_verified flt req user w)
     = Ok (StatusError "Account disabled or locked", 403)) /\
  (fst (is_active_account flt user w) = Ok false <->
   fst (login_submit_status_check flt now utcnow' user w)
     = Ok (Redirect "auth.login_page"
             (Some ("Account disabled / locked", "error")))).
Proof.
  intros Hs.
  rewrite is_active_account_run, api_login_verified_run,
    login_submit_status_check_run, Hs. cbv zeta.
  destruct (eligible _); cbn [fst].
  - destruct (commit_fault flt); [split; split; discriminate|].
    destruct (get_by_user_id (db w) (IAMUserAccount.user_id user));
      [|split; split; discriminate].
    destruct (user_query_fault flt); [split; split; discriminate|].
    destruct (audit_fault flt); split; split; discriminate.
  - split; split; reflexivity.
Qed.

Lemma is_active_account_agrees_with_login_witness :
  fst (is_active_account no_faults alice (mkWorld locked_store None)) = Ok false /\
  fst (api_login_verified no_faults empty_request alice (mkWorld locked_store None))
    = Ok (StatusError "Account disabled or locked", 403).
Proof.
  split; [reflexivity|].
  apply (proj1 (is_active_account_agrees_with_login no_faults empty_request 0 0
                  alice (mkWorld locked_store None) eq_refl)).
  reflexivity.
Defined.

(** ** The listing endpoints *)

Lemma login_required_view_run {A} flt (view : IAMUserAccount.t -> M A) w :
  login_required_view flt view w =
  match session_user_id w with
  | None => (Ok Refused, w)
  | Some uid =>
      match user_query_fault flt with
      | Some e => (Raised e, w)
      | None =>
          match get_by_user_id (db w) uid with
          | None => (Ok Refused, w)
          | Some user =>
              match view user w with
              | (Ok r, w') => (Ok (Ran r), w')
              | (Raised e, w') => (Raised e, w')
              end
          end
      end
  end.
Proof.
  unfold login_required_view, current_user, load_user, query_get. run_monad.
  destruct (session_user_id w) as [uid|]; [|reflexivity].
  destruct (user_query_fault flt); [reflexivity|].
  destruct (get_by_user_id (db w) uid) as [user|]; [|reflexivity].
  by destruct (view user w) as [[r|e] w'].
Qed.

Lemma get_by_user_id_Some (st : Store) (uid : Z) (u : IAMUserAccount.t) :
  get_by_user_id st uid = Some u -> IAMUserAccount.user_id u = uid.
Proof.
  intros H. apply find_some in H. destruct H as [_ H]. by apply Z.eqb_eq.
Qed.

(** The caller of a protected endpoint holds a session token whose user
    row exists. *)
Lemma gate_passes {A} flt (view : IAMUserAccount.t -> M A) w caller cu :
  user_query_fault flt = None ->
  session_user_id w = Some caller ->
  get_by_user_id (db w) caller = Some cu ->
  login_required_view flt view w =
  match view cu w with
  | (Ok r, w') => (Ok (Ran r), w')
  | (Raised e, w') => (Raised e, w')
  end.
Proof. intros Hq Htok Hcu. by rewrite login_required_view_run, Htok, Hq, Hcu. Qed.

Section UserDetailProperties.

Variable created_at : IAMUserAccount.t -> option Z.
Variable not_found : string.

(** X12. [GET /api/users/<id>] for an id without a row does not answer
    404: the [NotFound] that [get_or_404] raises is caught by the handler's
    own [except], and the answer is 500 with "Server error: " followed by
    the text of that exception.  Nothing changes. *)
Theorem api_user_detail_missing flt user_id w caller cu :
  user_query_fault flt = None ->
  session_user_id w = Some caller ->
  get_by_user_id (db w) caller = Some cu ->
  get_by_user_id (db w) user_id = None ->
  api_user_detail created_at not_found flt user_id w
  = (Ok (Ran (JsonError ("Server error: " +:+ not_found), 500)), w).
Proof.
  intros Hq Htok Hcu Hmiss. unfold api_user_detail.
  rewrite (gate_passes flt _ w caller cu Hq Htok Hcu).
  unfold get_or_404, query_get. run_monad. by rewrite Hq, Hmiss.
Qed.

Lemma api_user_detail_found flt user_id w caller cu user :
  user_query_fault flt = None ->
  status_query_fault flt = None ->
  session_user_id w = Some caller ->
  get_by_user_id (db w) caller = Some cu ->
  get_by_user_id (db w) user_id = Some user ->
  api_user_detail created_at not_found flt user_id w
  = (Ok (Ran (JsonData
                (mkUserDetail user_id (IAMUserAccount.username user)
                   (IAMUserAccount.email user) (IAMUserAccount.display_name user)
                   (IAMUserAccount.phone_number user)
                   (IAMUserAccount.auth_provider user)
                   (map IAMRole.role_name (user_roles (db w) user_id))
                   (match IAMUserAccount.is_active user with
                    | Some v => bool_of_int v | None => true end)
                   (match IAMUserAccount.is_locked user with
                    | Some v => bool_of_int v | None => false end)
                   (IAMUserAccount.last_login_at user)
                   (created_at user)),
              200)), w).
Proof.
  intros Hq Hs Htok Hcu Hrow. unfold api_user_detail.
  rewrite (gate_passes flt _ w caller cu Hq Htok Hcu).
  unfold get_or_404, query_get, execute_select_status, select_status. run_monad.
  rewrite Hq, Hrow, Hs, (get_by_user_id_Some _ _ _ Hrow), Hrow. reflexivity.
Qed.

(** X13. The status that [GET /api/users/<id>] shows is the status the
    login acts on: the user is shown active and not locked exactly when the
    status check of the login admits the account, and [is_active_account]
    gives the same answer. *)
Theorem api_user_detail_status flt user_id w caller cu user :
  user_query_fault flt = None ->
  status_query_fault flt = None ->
  session_user_id w = Some caller ->
  get_by_user_id (db w) caller = Some cu ->
  get_by_user_id (db w) user_id = Some user ->
  exists d,
    api_user_detail created_at not_found flt user_id w
      = (Ok (Ran (JsonData d, 200)), w) /\
    detail_is_active d && negb (detail_is_locked d)
      = eligible (select_status (db w) user_id) /\
    is_active_account flt user w
      = (Ok (detail_is_active d && negb (detail_is_locked d)), w) /\
    (detail_is_active d && negb (detail_is_locked d) = false <->
     forall req, fst (api_login_verified flt req user w)
                 = Ok (StatusError "Account disabled or locked", 403)).
Proof.
  intros Hq Hs Htok Hcu Hrow.
  eexists. split; [by apply (api_user_detail_found flt user_id w caller cu user)|].
  cbn [detail_is_active detail_is_locked].
  assert (Hel : eligible (select_status (db w) user_id)
                = (match IAMUserAccount.is_active user with
                   | Some v => bool_of_int v | None => true end)
                  && negb (match IAMUserAccount.is_locked user with
                           | Some v => bool_of_int v | None => false end)).
  { unfold select_status. by rewrite Hrow. }
  split; [by rewrite Hel|].
  split.
  { rewrite is_active_account_run, Hs, (get_by_user_id_Some _ _ _ Hrow).
    by rewrite Hel. }
  rewrite <- Hel. split.
  - intros Hfalse req. rewrite api_login_verified_run, Hs. cbv zeta.
    by rewrite (get_by_user_id_Some _ _ _ Hrow), Hfalse.
  - intros Hall. specialize (Hall (mkRequest (Ok None) None None 0)).
    rewrite api_login_verified_run, Hs in Hall. cbv zeta in Hall.
    rewrite (get_by_user_id_Some _ _ _ Hrow), Hrow, Hq in Hall.
    destruct (eligible (select_status (db w) user_id)); [|reflexivity].
    destruct (commit_fault flt); [discriminate Hall|].
    destruct (audit_fault flt); discriminate Hall.
Qed.

(** X14. Login, then look the user up: after a login that succeeds at the
    time [utcnow], [GET /api/users/<id>] on the session it established shows
    the user with [last_login_at] equal to that time, active and not
    locked. *)
Theorem api_login_then_user_detail check flt req u p w user :
  credentials req u p ->
  user_query_fault flt = None -> status_query_fault flt = None ->
  commit_fault flt = None ->
  first_by_username (db w) u = Some user ->
  get_by_user_id (db w) (IAMUserAccount.user_id user) = Some user ->
  verify_password check user p = true ->
  eligible (Some (IAMUserAccount.is_active user, IAMUserAccount.is_locked user))
    = true ->
  let w' := snd (api_login check flt req w) in
  exists d,
    api_user_detail created_at not_found flt (IAMUserAccount.user_id user) w'
      = (Ok (Ran (JsonData d, 200)), w') /\
    detail_username d = IAMUserAccount.username user /\
    detail_last_login_at d = Some (utcnow req) /\
    detail_is_active d = true /\ detail_is_locked d = false.
Proof.
  intros Hc Hq Hs Hcm Hfound Hrow Hpw Hel w'. subst w'.
  rewrite (api_login_run check flt req u p w Hc), Hq, Hfound, Hpw.
  rewrite api_login_verified_run, Hs. cbv zeta.
  rewrite (select_status_of_row _ _ Hrow), Hel, Hcm, Hrow, Hq.
  set (user' := IAMUserAccount.with_updated_at
                  (IAMUserAccount.with_last_login_at user (utcnow req))
                  (utcnow req)).
  set (w' := snd _).
  assert (Hrow' : get_by_user_id (db w') (IAMUserAccount.user_id user)
                  = Some user').
  { subst w'. destruct (audit_fault flt); cbn [snd set_db set_session_user_id db].
    - by apply get_by_user_id_after_login.
    - change (get_by_user_id (add_auth_log ?log ?st) ?uid)
        with (get_by_user_id st uid).
      by apply get_by_user_id_after_login. }
  assert (Htok : session_user_id w' = Some (IAMUserAccount.user_id user)).
  { subst w'. by destruct (audit_fault flt). }
  eexists. split.
  { by apply (api_user_detail_found flt _ w' (IAMUserAccount.user_id user)
                user' user'). }
  cbn. split; [done|]. split; [done|].
  cbn [eligible] in Hel. apply andb_true_iff in Hel. destruct Hel as [Ha Hl].
  split; [exact Ha | by apply negb_true_iff].
Qed.

End UserDetailProperties.

Lemma api_user_detail_missing_witness :
  api_user_detail (fun _ => None) "404 Not Found" no_faults 99 session_world
  = (Ok (Ran (JsonError "Server error: 404 Not Found", 500)), session_world).
Proof.
  exact (api_user_detail_missing (fun _ => None) "404 Not Found" no_faults 99
           session_world 1 alice eq_refl eq_refl eq_refl eq_refl).
Defined.

Lemma api_user_detail_status_witness :
  exists d,
    api_user_detail (fun _ => Some 5) "404 Not Found" no_faults 1 session_world
      = (Ok (Ran (JsonData d, 200)), session_world) /\
    detail_is_active d && negb (detail_is_locked d) = true.
Proof.
  destruct (api_user_detail_status (fun _ => Some 5) "404 Not Found" no_faults 1
              session_world 1 alice alice eq_refl eq_refl eq_refl eq_refl eq_refl)
    as [d [Hd [Hel _]]].
  exists d. split; [exact Hd|]. rewrite Hel. reflexivity.
Defined.

Lemma api_login_then_user_detail_witness :
  exists d,
    api_user_detail (fun _ => Some 5) "404 Not Found" no_faults 1
      (snd (api_login example_check no_faults
              (login_request "alice" "Secr3t!") example_world))
    = (Ok (Ran (JsonData d, 200)),
       snd (api_login example_check no_faults
              (login_request "alice" "Secr3t!") example_world)) /\
    detail_last_login_at d = Some 1000.
Proof.
  destruct (api_login_then_user_detail (fun _ => Some 5) "404 Not Found"
              example_check no_faults (login_request "alice" "Secr3t!")
              "alice" "Secr3t!" example_world alice
              (alice_credentials "Secr3t!" ltac:(discriminate))
              eq_refl eq_refl eq_refl eq_refl eq_refl eq_refl eq_refl)
    as [d [Hd [_ [Hlast _]]]].
  exists d. split; [exact Hd | exact Hlast].
Defined.

#[global] Instance login_time_desc_total : Total login_time_desc.
Proof. intros a b. unfold login_time_desc. lia. Qed.

Lemma query_active_sessions_spec (st : Store) :
  query_active_sessions st
    ≡ₚ filter (fun s => IAMAuthSession.logout_time s = None) (iam_auth_session st) /\
  Sorted login_time_desc (query_active_sessions st).
Proof.
  unfold query_active_sessions. split.
  - apply merge_sort_Permutation.
  - apply (Sorted_merge_sort login_time_desc).
Qed.

(** X15. For a caller with a session, [GET /api/sessions/active] answers 200
    with one entry for each session row whose [logout_time] is NULL and for
    no other row, the entries ordered by [login_time], latest first, and
    [total] equal to their number; when the sessions query fails, the answer
    is 500 with the text of the exception. *)
Theorem api_active_sessions_lists flt w caller cu :
  user_query_fault flt = None ->
  session_user_id w = Some caller ->
  get_by_user_id (db w) caller = Some cu ->
  (exists sessions,
      api_active_sessions flt None w
        = (Ok (Ran (JsonData (map (session_entry (db w)) sessions,
                              length sessions), 200)), w) /\
      sessions ≡ₚ filter (fun s => IAMAuthSession.logout_time s = None)
                    (iam_auth_session (db w)) /\
      Sorted login_time_desc sessions) /\
  (forall e,
      api_active_sessions flt (Some e) w
        = (Ok (Ran (JsonError ("Server error: " +:+ e), 500)), w)).
Proof.
  intros Hq Htok Hcu. split.
  - exists (query_active_sessions (db w)).
    split; [|apply query_active_sessions_spec].
    unfold api_active_sessions.
    rewrite (gate_passes flt _ w caller cu Hq Htok Hcu).
    unfold sessions_data. run_monad. by rewrite length_map.
  - intros e. unfold api_active_sessions.
    by rewrite (gate_passes flt _ w caller cu Hq Htok Hcu).
Qed.

Lemma api_active_sessions_lists_witness :
  (exists sessions,
      api_active_sessions no_faults None sessions_world
        = (Ok (Ran (JsonData (map (session_entry (db sessions_world)) sessions,
                              length sessions), 200)), sessions_world) /\
      Sorted login_time_desc sessions) /\
  api_active_sessions no_faults None sessions_world
  = (Ok (Ran (JsonData
                ([mkSessionEntry "s-2" 7 None (Some 950) None None;
                  mkSessionEntry "s-1" 1 (Some "alice") (Some 900)
                    (Some "10.0.0.1") (Some "curl/8")],
                 2%nat), 200)), sessions_world).
Proof.
  split; [|by vm_compute].
  destruct (api_active_sessions_lists no_faults sessions_world 1 alice
              eq_refl eq_refl eq_refl) as [[sessions [Hrun [_ Hsorted]]] _].
  exists sessions. split; [exact Hrun | exact Hsorted].
Defined.

Lemma username_lookup_forget (l l' : list IAMUserAccount.t) (uid : Z) :
  map forget_login_stamps l' = map forget_login_stamps l ->
  IAMUserAccount.username <$> find (fun u => IAMUserAccount.user_id u =? uid) l'
  = IAMUserAccount.username <$> find (fun u => IAMUserAccount.user_id u =? uid) l.
Proof.
  revert l'. induction l as [|x l IH]; intros [|x' l'] H; try discriminate H.
  - reflexivity.
  - simpl in H. injection H as Hid _ Hname _ _ _ _ _ _ _ Hl.
    simpl. rewrite Hid. destruct (IAMUserAccount.user_id x =? uid).
    + simpl. by rewrite Hname.
    + by apply IH.
Qed.

Lemma sessions_data_ext (st st' : Store) :
  iam_auth_session st' = iam_auth_session st ->
  map forget_login_stamps (iam_user_account st')
    = map forget_login_stamps (iam_user_account st) ->
  sessions_data st' = sessions_data st.
Proof.
  intros Hs Hu. unfold sessions_data, query_active_sessions. rewrite Hs.
  apply map_ext. intros s. unfold session_entry, get_by_user_id.
  by rewrite (username_lookup_forget _ _ _ Hu).
Qed.


Lemma login_submit_tables check flt u p now utcnow w :
  iam_auth_session (db (snd (login_submit check flt u p now utcnow w)))
    = iam_auth_session (db w) /\
  map forget_login_stamps
      (iam_user_account (db (snd (login_submit check flt u p now utcnow w))))
    = map forget_login_stamps (iam_user_account (db w)).
Proof.
  rewrite login_submit_run.
  destruct (user_query_fault flt); [done|].
  destruct (first_by_username (db w) u) as [user|]; [|done].
  destruct (verify_password check user p); [|done].
  rewrite login_submit_status_check_run.
  destruct (status_query_fault flt); [done|]. cbv zeta.
  destruct (eligible _); [|done].
  destruct (commit_fault flt); [done|].
  destruct (get_by_user_id (db w) (IAMUserAccount.user_id user)); [|done].
  cbn [snd db set_db set_session_user_id set_last_login_at
         iam_auth_session iam_user_account].
  by rewrite map_forget_set_last_login_at.
Qed.

Lemma api_logout_tables flt req w :
  iam_auth_session (db (snd (api_logout flt req w))) = iam_auth_session (db w) /\
  iam_user_account (db (snd (api_logout flt req w))) = iam_user_account (db w).
Proof.
  rewrite api_logout_run.
  destruct (session_user_id w) as [uid|]; [|done].
  destruct (user_query_fault flt); [done|].
  destruct (get_by_user_id (db w) uid); [|done].
  unfold audited. by destruct (audit_fault flt).
Qed.

(** X16. No login and no logout ever shows in the list of active sessions:
    whatever the request and whichever store calls fail, the entries that
    [GET /api/sessions/active] builds are the same after [api_login], after
    [api_logout] and after the form login as before. *)
Theorem sessions_data_unchanged check flt req u p now utcnow w :
  sessions_data (db (snd (api_login check flt req w))) = sessions_data (db w) /\
  sessions_data (db (snd (api_logout flt req w))) = sessions_data (db w) /\
  sessions_data (db (snd (login_submit check flt u p now utcnow w)))
    = sessions_data (db w).
Proof.
  split; [|split].
  - destruct (api_login_tables check flt req w) as [_ [_ [Hs Hu]]].
    by apply sessions_data_ext.
  - destruct (api_logout_tables flt req w) as [Hs Hu].
    apply sessions_data_ext; [done | by rewrite Hu].
  - destruct (login_submit_tables check flt u p now utcnow w) as [Hs Hu].
    by apply sessions_data_ext.
Qed.

(** ** Roles and their users *)

Lemma omap_cons_case {A B} (f : A -> option B) (x : A) (l : list A) :
  omap f (x :: l)
  = match f x with Some y => y :: omap f l | None => omap f l end.
Proof. reflexivity. Qed.

Lemma role_users_length_le (st : Store) (rid : Z) :
  (length (role_users st rid) <= count_assignments st rid)%nat.
Proof.
  unfold role_users, count_assignments.
  induction (iam_user_role st) as [|ur l IH]; [done|].
  rewrite filter_cons, omap_cons_case.
  destruct (Z.eqb_spec (IAMUserRole.role_id ur) rid) as [Heq|Hne].
  - rewrite decide_True by done.
    destruct (get_by_user_id st (IAMUserRole.user_id ur));
      rewrite ?length_cons; lia.
  - by rewrite decide_False by done.
Qed.

Lemma role_users_length_eq (st : Store) (rid : Z) :
  (forall ur, ur ∈ iam_user_role st ->
     is_Some (get_by_user_id st (IAMUserRole.user_id ur))) ->
  length (role_users st rid) = count_assignments st rid.
Proof.
  unfold role_users, count_assignments.
  induction (iam_user_role st) as [|ur l IH]; intros Hfk; [done|].
  rewrite filter_cons.
  assert (IH' : length (omap (fun ur0 =>
                   if IAMUserRole.role_id ur0 =? rid
                   then get_by_user_id st (IAMUserRole.user_id ur0) else None) l)
                = length (filter (fun ur0 => IAMUserRole.role_id ur0 = rid) l)).
  { apply IH. intros ur0 Hin. apply Hfk. by right. }
  rewrite omap_cons_case.
  destruct (Z.eqb_spec (IAMUserRole.role_id ur) rid) as [Heq|Hne].
  - rewrite decide_True by done.
    destruct (Hfk ur) as [user Huser]; [by left|].
    rewrite Huser, !length_cons. by rewrite IH'.
  - by rewrite decide_False by done.
Qed.

Lemma role_counts_fold (st : Store) (roles : list IAMRole.t)
      (counts : gmap Z nat) (rid : Z) :
  fold_left
    (fun counts role =>
       <[IAMRole.role_id role := count_assignments st (IAMRole.role_id role)]> counts)
    roles counts !! rid
  = if bool_decide (rid ∈ map IAMRole.role_id roles)
    then Some (count_assignments st rid)
    else counts !! rid.
Proof.
  revert counts. induction roles as [|r roles IH]; intros counts.
  - cbn [fold_left map]. case_bool_decide as H; [by apply elem_of_nil in H | done].
  - cbn [fold_left map]. rewrite IH.
    case_bool_decide as Htail; case_bool_decide as Hcons.
    + done.
    + exfalso. apply Hcons. by right.
    + apply elem_of_cons in Hcons. destruct Hcons as [->|Hin]; [|done].
      by rewrite lookup_insert_eq.
    + rewrite lookup_insert_ne; [done|]. intros Heq. apply Hcons. rewrite Heq. by left.
Qed.

Section RolesProperties.

Variable order_by_role_name : list IAMRole.t -> list IAMRole.t.

(** X17. For every role that [GET /api/roles] lists, the admin page counts
    the role's assignment rows under the role's id, and the [user_count] of
    the API, which counts the users joined to the role, is never larger;
    the two are equal when every assignment row points to an existing
    user. *)
Theorem role_counts_agree (st : Store) (entry : RoleEntry) :
  entry ∈ roles_data order_by_role_name st ->
  role_counts st (order_by_role_name (iam_role st)) !! entry_role_id entry
    = Some (count_assignments st (entry_role_id entry)) /\
  (entry_user_count entry <= count_assignments st (entry_role_id entry))%nat /\
  ((forall ur, ur ∈ iam_user_role st ->
      is_Some (get_by_user_id st (IAMUserRole.user_id ur))) ->
   role_counts st (order_by_role_name (iam_role st)) !! entry_role_id entry
     = Some (entry_user_count entry)).
Proof.
  intros Hin. unfold roles_data in Hin.
  apply list_elem_of_In, in_map_iff in Hin. destruct Hin as [role [<- Hrole]].
  cbn [entry_role_id entry_user_count].
  assert (Hcount : role_counts st (order_by_role_name (iam_role st))
                     !! IAMRole.role_id role
                   = Some (count_assignments st (IAMRole.role_id role))).
  { unfold role_counts. rewrite role_counts_fold, lookup_empty.
    rewrite bool_decide_eq_true_2; [done|].
    apply list_elem_of_In, in_map. exact Hrole. }
  split; [exact Hcount|]. split; [apply role_users_length_le|].
  intros Hfk. by rewrite Hcount, role_users_length_eq.
Qed.

End RolesProperties.

Lemma role_counts_agree_witness :
  role_counts example_store (iam_role example_store) !! 10 = Some 1%nat.
Proof.
  apply (proj2 (proj2 (role_counts_agree (fun l => l) example_store
                         (mkRoleEntry 10 "admin" None 1)
                         ltac:(by left)))).
  intros ur Hin. apply list_elem_of_singleton in Hin. subst ur. by exists alice.
Defined.

(** X18. The RBAC query and the listing of a role's users agree: for a
    role of the table with a unique name and a user of the table, [has_role]
    answers true for the role's name exactly when the user is among the
    role's users. *)
Theorem has_role_iff_role_users (st : Store) (user : IAMUserAccount.t)
        (role : IAMRole.t) :
  role_name_unique st ->
  find (fun r => IAMRole.role_id r =? IAMRole.role_id role) (iam_role st)
    = Some role ->
  get_by_user_id st (IAMUserAccount.user_id user) = Some user ->
  has_role st user (IAMRole.role_name role) = true
  <-> user ∈ role_users st (IAMRole.role_id role).
Proof.
  intros Huniq Hrole Huser. rewrite has_role_true. unfold role_users.
  rewrite list_elem_of_omap. split.
  - intros [r [Hr Hname]]. apply user_roles_elem in Hr.
    destruct Hr as [ur [Hin [Huid Hfind]]].
    exists ur. split; [exact Hin|].
    destruct (find_role_id st _ _ Hfind) as [Hrin Hrid].
    destruct (find_role_id st _ _ Hrole) as [Hrolein _].
    assert (Hid : IAMUserRole.role_id ur = IAMRole.role_id role).
    { rewrite <- Hrid. by apply Huniq. }
    rewrite Hid, Z.eqb_refl, Huid. exact Huser.
  - intros [ur [Hin Hget]].
    destruct (Z.eqb_spec (IAMUserRole.role_id ur) (IAMRole.role_id role))
      as [Hid|]; [|discriminate].
    exists role. split; [|reflexivity].
    apply user_roles_elem. exists ur. split; [exact Hin|].
    split; [|by rewrite Hid].
    symmetry. by apply (get_by_user_id_Some st).
Qed.

Lemma has_role_iff_role_users_witness :
  alice ∈ role_users example_store 10.
Proof.
  apply (has_role_iff_role_users example_store alice admin_role
           example_role_name_unique eq_refl eq_refl).
  reflexivity.
Defined.

(** ** MFA enrolments *)

Lemma users_with_mfa_snoc (st : Store) (l : list IAMMfaMethod.t) (m : IAMMfaMethod.t) :
  users_with_mfa st (l ++ [m]) = mfa_group_step st (users_with_mfa st l) m.
Proof. unfold users_with_mfa. by rewrite fold_left_app. Qed.

Lemma users_with_mfa_lookup (st : Store) (l : list IAMMfaMethod.t) (uid : Z) :
  users_with_mfa st l !! uid
  = match filter (fun m => IAMMfaMethod.user_id m = uid) l with
    | [] => None
    | m :: ms => Some (mkMfaGroup (get_by_user_id st uid) (m :: ms))
    end.
Proof.
  induction l as [|x l IH] using rev_ind; [done|].
  rewrite users_with_mfa_snoc, filter_app, filter_cons, filter_nil.
  unfold mfa_group_step. cbv zeta.
  destruct (decide (IAMMfaMethod.user_id x = uid)) as [Heq|Hne].
  - subst uid. rewrite lookup_alter_eq.
    destruct (filter _ l) as [|m ms] eqn:Hf.
    + rewrite IH. by rewrite lookup_insert_eq.
    + rewrite IH. cbn. by rewrite IH.
  - rewrite app_nil_r, lookup_alter_ne by done.
    destruct (users_with_mfa st l !! IAMMfaMethod.user_id x); [done|].
    by rewrite lookup_insert_ne.
Qed.

(** X19. The grouping of [/admin/mfa]: under a user id the dictionary
    holds the user row of that id and exactly the listed methods of that
    user, in the order of the list; every listed method is under its user's
    id, and a user without a listed method has no entry. *)
Theorem users_with_mfa_groups (st : Store) (mfa_methods : list IAMMfaMethod.t) :
  (forall uid g,
     users_with_mfa st mfa_methods !! uid = Some g ->
     group_user g = get_by_user_id st uid /\
     group_methods g = filter (fun m => IAMMfaMethod.user_id m = uid) mfa_methods /\
     group_methods g <> []) /\
  (forall m,
     m ∈ mfa_methods ->
     exists g, users_with_mfa st mfa_methods !! IAMMfaMethod.user_id m = Some g /\
               m ∈ group_methods g) /\
  (forall uid,
     (forall m, m ∈ mfa_methods -> IAMMfaMethod.user_id m <> uid) ->
     users_with_mfa st mfa_methods !! uid = None).
Proof.
  split; [|split].
  - intros uid g. rewrite users_with_mfa_lookup.
    destruct (filter _ mfa_methods) as [|m ms]; [discriminate|].
    intros [= <-]. done.
  - intros m Hin. rewrite users_with_mfa_lookup.
    assert (Hf : m ∈ filter (fun m0 => IAMMfaMethod.user_id m0
                                       = IAMMfaMethod.user_id m) mfa_methods).
    { by apply list_elem_of_filter. }
    destruct (filter _ mfa_methods) as [|m0 ms]; [by apply elem_of_nil in Hf|].
    eexists. split; [reflexivity | exact Hf].
  - intros uid Hnone. rewrite users_with_mfa_lookup.
    destruct (filter _ mfa_methods) as [|m ms] eqn:Hf; [done|].
    assert (Hin : m ∈ filter (fun m0 => IAMMfaMethod.user_id m0 = uid) mfa_methods).
    { rewrite Hf. by left. }
    apply list_elem_of_filter in Hin. destruct Hin as [Hid Hin].
    by destruct (Hnone m Hin).
Qed.

Lemma users_with_mfa_groups_witness :
  exists g,
    users_with_mfa example_store (query_active_mfa_methods example_mfa_methods) !! 1
      = Some g /\
    map IAMMfaMethod.mfa_id (group_methods g) = [3; 1] /\
    users_with_mfa example_store (query_active_mfa_methods example_mfa_methods) !! 2
      = None.
Proof.
  destruct (users_with_mfa_groups example_store
              (query_active_mfa_methods example_mfa_methods))
    as [Hget [Hin Hnone]].
  destruct (Hin (IAMMfaMethod.mk 1 1 totp (Some "k1") true true 10 10))
    as [g [Hg _]].
  { vm_compute. right. left. }
  exists g. split; [exact Hg|].
  destruct (Hget 1 g Hg) as [_ [Hms _]].
  split; [by rewrite Hms|].
  apply Hnone. intros m Hm. vm_compute in Hm.
  apply elem_of_cons in Hm. destruct Hm as [->|Hm]; [discriminate|].
  apply list_elem_of_singleton in Hm. subst m. discriminate.
Defined.

(** X20. [has_active_mfa] and the admin page agree: a user has active MFA
    exactly when the page's dictionary has an entry under the user's id. *)
Theorem has_active_mfa_iff_listed (st : Store) (iam_mfa_method : list IAMMfaMethod.t)
        (self : IAMUserAccount.t) :
  has_active_mfa iam_mfa_method self = true
  <-> is_Some (users_with_mfa st (query_active_mfa_methods iam_mfa_method)
                 !! IAMUserAccount.user_id self).
Proof.
  rewrite users_with_mfa_lookup. unfold has_active_mfa, query_active_mfa_methods.
  assert (Hlen :
    length (filter (fun m => IAMMfaMethod.user_id m = IAMUserAccount.user_id self)
              (merge_sort created_at_desc
                 (filter (fun m => IAMMfaMethod.is_active m = true) iam_mfa_method)))
    = length (filter (fun m => IAMMfaMethod.user_id m = IAMUserAccount.user_id self
                               /\ IAMMfaMethod.is_active m = true) iam_mfa_method)).
  { rewrite <- list_filter_filter. apply Permutation_length.
    apply filter_Permutation, merge_sort_Permutation. }
  rewrite <- Hlen.
  destruct (filter _ (merge_sort _ _)) as [|m ms]; simpl.
  - split; [discriminate | by intros [? ?]].
  - split; [eauto | done].
Qed.

(** ** Health check, version bump, client URL, password helper *)

(** X21. The health check answers 200 exactly when [SELECT 1] succeeds,
    with the database reported as "connected"; when it fails the answer is
    503 and the database field is "error: " followed by the text of the
    exception.  The [status] field reads "ok" in both cases. *)
Theorem healthcheck_status (select_1_fault : option string) :
  (snd (healthcheck select_1_fault) = 200 <-> select_1_fault = None) /\
  (snd (healthcheck select_1_fault) = 200
   \/ snd (healthcheck select_1_fault) = 503) /\
  (health_database (fst (healthcheck select_1_fault)) = "connected"
   <-> select_1_fault = None) /\
  (forall e, select_1_fault = Some e ->
     healthcheck select_1_fault = (mkHealth "ok" "IAM" ("error: " +:+ e), 503)) /\
  health_status (fst (healthcheck select_1_fault)) = "ok".
Proof.
  destruct select_1_fault as [e|]; cbn.
  - repeat split; try discriminate; auto. intros _ [= <-]. reflexivity.
  - repeat split; auto; discriminate.
Qed.

Lemma healthcheck_status_witness :
  healthcheck (Some "connected") = (mkHealth "ok" "IAM" "error: connected", 503).
Proof.
  exact (proj1 (proj2 (proj2 (proj2 (healthcheck_status (Some "connected")))))
           "connected" eq_refl).
Defined.

Lemma bump_version_cases (major minor rev : Z) (bump_type : string) :
  (bump_type = "rev" /\ bump_version major minor rev bump_type
                        = Some (major, minor, rev + 1)) \/
  (bump_type = "minor" /\ bump_version major minor rev bump_type
                          = Some (major, minor + 1, 0)) \/
  (bump_type = "major" /\ bump_version major minor rev bump_type
                          = Some (major + 1, 0, 0)) \/
  (bump_type <> "rev" /\ bump_type <> "minor" /\ bump_type <> "major"
   /\ bump_version major minor rev bump_type = None).
Proof.
  unfold bump_version.
  destruct (String.eqb_spec bump_type "rev") as [->|H1]; [by left|].
  destruct (String.eqb_spec bump_type "minor") as [->|H2]; [by right; left|].
  destruct (String.eqb_spec bump_type "major") as [->|H3];
    [by right; right; left|].
  by right; right; right.
Qed.

(** X22. A version bump always moves forward: whenever [bump_version]
    returns, the new version is greater than the old one (compared major
    first, then minor, then revision).  It exits exactly when the bump
    type is none of "rev", "minor" and "major", case included. *)
Theorem bump_version_increases (major minor rev : Z) (bump_type : string) :
  (forall v, bump_version major minor rev bump_type = Some v ->
     version_lt (major, minor, rev) v) /\
  (bump_version major minor rev bump_type = None <->
   bump_type <> "rev" /\ bump_type <> "minor" /\ bump_type <> "major").
Proof.
  destruct (bump_version_cases major minor rev bump_type)
    as [[-> H] | [[-> H] | [[-> H] | [H1 [H2 [H3 H]]]]]]; rewrite H.
  - split; [intros v [= <-]; unfold version_lt; lia|].
    split; [discriminate | by intros [? _]].
  - split; [intros v [= <-]; unfold version_lt; lia|].
    split; [discriminate | by intros [_ [? _]]].
  - split; [intros v [= <-]; unfold version_lt; lia|].
    split; [discriminate | by intros [_ [_ ?]]].
  - split; [discriminate | done].
Qed.

Lemma bump_version_increases_witness :
  version_lt (1, 1, 0) (1, 2, 0).
Proof.
  exact (proj1 (bump_version_increases 1 1 0 "minor") (1, 2, 0) eq_refl).
Defined.

Section BumpMainProperties.

Variable lower : string -> string.
Variable search_version : string -> option (Z * Z * Z).


End BumpMainProperties.


Lemma append_empty_l (s : string) : "" +:+ s = s.
Proof. reflexivity. Qed.

Lemma append_String (c : Ascii.ascii) (s t : string) :
  String c s +:+ t = String c (s +:+ t).
Proof. reflexivity. Qed.

Lemma rstrip_slash_slashes (n : nat) : rstrip_slash (slashes n) = "".
Proof. induction n as [|n IH]; [done|]. simpl. by rewrite IH. Qed.

Lemma rstrip_slash_app_slashes (s : string) (n : nat) :
  rstrip_slash (s +:+ slashes n) = rstrip_slash s.
Proof.
  induction s as [|c rest IH].
  - rewrite append_empty_l. apply rstrip_slash_slashes.
  - rewrite append_String. simpl. by rewrite IH.
Qed.

Lemma rstrip_slash_decompose (s : string) :
  exists n, s = rstrip_slash s +:+ slashes n.
Proof.
  induction s as [|c rest [n IH]]; [by exists 0%nat|].
  simpl. destruct (rstrip_slash rest) as [|c' r'] eqn:Hr.
  - rewrite append_empty_l in IH. destruct (Ascii.eqb_spec c slash) as [->|Hc].
    + exists (S n). rewrite append_empty_l. simpl. by rewrite <- IH.
    + exists n. rewrite append_String, append_empty_l. by rewrite <- IH.
  - exists n. rewrite append_String. by rewrite <- IH.
Qed.

Lemma rstrip_slash_no_trailing (s t : string) : rstrip_slash s <> t +:+ "/".
Proof.
  revert t. induction s as [|c rest IH]; intros t H.
  - destruct t; discriminate H.
  - simpl in H. destruct (rstrip_slash rest) as [|c' r'] eqn:Hr.
    + destruct (Ascii.eqb_spec c slash) as [->|Hc].
      * destruct t; discriminate H.
      * destruct t as [|ct t'].
        { rewrite append_empty_l in H. injection H as Hc'. by apply Hc. }
        { rewrite append_String in H. injection H as _ H.
          destruct t'; discriminate H. }
    + destruct t as [|ct t'].
      * rewrite append_empty_l in H. discriminate H.
      * rewrite append_String in H. injection H as _ H. by apply (IH t').
Qed.

(** X24. The client's base URL: trailing slashes are removed and nothing
    else, so that the stored URL never ends in a slash, the given URL is the
    stored one followed by slashes only, and the URL requested for a path
    does not depend on how many slashes the base URL was given with. *)
Theorem client_base_url_spec (base_url path : string) :
  (exists n, base_url = client_base_url base_url +:+ slashes n) /\
  (forall t, client_base_url base_url <> t +:+ "/") /\
  client_base_url (client_base_url base_url) = client_base_url base_url /\
  (forall n, client_url (base_url +:+ slashes n) path = client_url base_url path).
Proof.
  unfold client_url, client_base_url. split; [apply rstrip_slash_decompose|].
  split; [intros t; apply rstrip_slash_no_trailing|]. split.
  - destruct (rstrip_slash_decompose base_url) as [n Hn].
    rewrite Hn at 2. by rewrite rstrip_slash_app_slashes.
  - intros n. by rewrite rstrip_slash_app_slashes.
Qed.

Section SetPasswordProperties.

Variable check : string -> string -> bool.
Variable generate : string -> string.

(** X25. After [set_password(p)], [verify_password(q)] is the library's
    check of [q] against the hash generated for [p], whatever hash the user
    had before, so that [p] itself is accepted when the library accepts its
    own hash; were the generated hash empty, every password would be
    rejected.  The identity and the status columns are left alone. *)
Theorem set_password_then_verify (self : IAMUserAccount.t) (p q : string) :
  (generate p <> "" ->
   verify_password check (set_password generate self p) q = check (generate p) q) /\
  (generate p <> "" -> check (generate p) p = true ->
   verify_password check (set_password generate self p) p = true) /\
  (generate p = "" ->
   verify_password check (set_password generate self p) q = false) /\
  IAMUserAccount.user_id (set_password generate self p)
    = IAMUserAccount.user_id self /\
  IAMUserAccount.username (set_password generate self p)
    = IAMUserAccount.username self /\
  IAMUserAccount.is_active (set_password generate self p)
    = IAMUserAccount.is_active self /\
  IAMUserAccount.is_locked (set_password generate self p)
    = IAMUserAccount.is_locked self.
Proof.
  assert (Hv : forall q', generate p <> "" ->
             verify_password check (set_password generate self p) q'
             = check (generate p) q').
  { intros q' Hne. unfold verify_password, set_password.
    cbn [IAMUserAccount.password_hash]. rewrite (truthy_str_nonempty _ Hne).
    reflexivity. }
  split; [by apply Hv|]. split; [intros Hne Hok; by rewrite Hv|].
  split; [|done].
  intros Hempty. unfold verify_password, set_password.
  cbn [IAMUserAccount.password_hash]. by rewrite Hempty.
Qed.

End SetPasswordProperties.

Lemma set_password_then_verify_witness :
  verify_password example_check (set_password example_generate alice "N3w-pass") "N3w-pass"
    = true /\
  verify_password example_check (set_password example_generate alice "N3w-pass") "Secr3t!"
    = false.
Proof.
  split.
  - apply (set_password_then_verify example_check example_generate alice
             "N3w-pass" "N3w-pass"); [discriminate | reflexivity].
  - rewrite (proj1 (set_password_then_verify example_check example_generate alice
                      "N3w-pass" "Secr3t!")); [reflexivity | discriminate].
Defined.

(** X26. The form logout never writes to the store, and in particular
    writes no audit row, unlike the REST logout: for a caller with a session
    it clears the session token and redirects to the login page; without a
    session the gate refuses and nothing changes. *)
Theorem form_logout_spec flt w :
  db (snd (form_logout flt w)) = db w /\
  (forall uid user,
     user_query_fault flt = None ->
     session_user_id w = Some uid ->
     get_by_user_id (db w) uid = Some user ->
     form_logout flt w
     = (Ok (Ran (Redirect "auth.login_page" None)), set_session_user_id w None)) /\
  (session_user_id w = None -> form_logout flt w = (Ok Refused, w)).
Proof.
  unfold form_logout. rewrite login_required_view_run. split; [|split].
  - destruct (session_user_id w) as [uid|]; [|done].
    destruct (user_query_fault flt); [done|].
    by destruct (get_by_user_id (db w) uid).
  - by intros uid user -> -> ->.
  - by intros ->.
Qed.

Lemma form_logout_spec_witness :
  form_logout no_faults session_world
    = (Ok (Ran (Redirect "auth.login_page" None)), mkWorld (db session_world) None) /\
  form_logout no_faults example_world = (Ok Refused, example_world).
Proof.
  split.
  - exact (proj1 (proj2 (form_logout_spec no_faults session_world))
             1 alice eq_refl eq_refl eq_refl).
  - exact (proj2 (proj2 (form_logout_spec no_faults example_world)) eq_refl).
Defined.

Lemma has_active_mfa_iff_listed_witness :
  has_active_mfa example_mfa_methods alice = true.
Proof.
  apply (has_active_mfa_iff_listed example_store example_mfa_methods alice).
  rewrite users_with_mfa_lookup. eexists. vm_compute. reflexivity.
Defined.

Lemma client_base_url_spec_witness :
  client_url "http://localhost:5000//" "/healthz" = "http://localhost:5000/healthz".
Proof.
  exact (proj2 (proj2 (proj2 (client_base_url_spec "http://localhost:5000" "/healthz")))
           2%nat).
Defined.
